(** * Gothog music player: playlist store, downloader, playback engine and
      session controller

    A shallow embedding of the Python sources

      - [src/utils/file_utils.py]      (module [FileUtils]),
      - [src/core/playlist_manager.py] (modules [Track], [PlaylistSettings],
                                        [PlaylistSource], [Playlist],
                                        [PlaylistManager]),
      - [src/core/downloader.py]       (modules [DownloadProgress],
                                        [PlaylistDownloader]),
      - [src/core/audio_player.py]     (module [AudioPlayer]),
      - [src/ui/main_window.py]        (module [MainWindow]),

    followed by the properties of the specification, each one stated on the
    embedded functions.

    Conventions.  Python [str] is [string], holding the UTF-8 encoding of
    the text: [len] and slicing count characters, that is the bytes that
    are no continuation bytes ([PyStr.len], [PyStr.take]), and the file
    system counts bytes; [int] is [Z]; [float] is the
    primitive IEEE-754 binary64 type [float]; [Optional[T]] is [option T];
    a [pathlib.Path] is the list of its components; the file system is a
    finite map from paths to nodes, and a JSON file holds its document as a
    value ([json.dump] and [json.load] are taken to be inverse).  A Python
    exception is a value [Exc e] of the result type; a method that mutates
    [self] returns the new object next to its result; [datetime.now()] is
    an argument [now] of the operation that reads the clock. *)

From Stdlib Require Import ZArith String Ascii List Bool Lia.
From Stdlib Require Import Floats.PrimFloat Numbers.Cyclic.Int63.Uint63.
From stdpp Require Import gmap strings list pretty.

Set Warnings "-register-all,-inexact-float".

Local Open Scope string_scope.
Local Open Scope Z_scope.

(** ** Python strings *)

Module PyStr.

(** [sub in s] *)
Fixpoint contains (sub s : string) : bool :=
  if String.prefix sub s then true
  else match s with
       | EmptyString => false
       | String _ s' => contains sub s'
       end.

(** One pass of [s.replace(c, '_')] for every [c] of a set of characters:
    the replacement character is not itself in the set, so the passes of
    the source's loop act on disjoint characters. *)
Fixpoint replace_chars (bad : list ascii) (by_ : ascii) (s : string) : string :=
  match s with
  | EmptyString => EmptyString
  | String c s' =>
      String (if existsb (Ascii.eqb c) bad then by_ else c)
             (replace_chars bad by_ s')
  end.

Fixpoint lstrip (cs : list ascii) (s : string) : string :=
  match s with
  | EmptyString => EmptyString
  | String c s' => if existsb (Ascii.eqb c) cs then lstrip cs s' else s
  end.

Definition rstrip (cs : list ascii) (s : string) : string :=
  String.rev (lstrip cs (String.rev s)).

(** [s.strip(cs)] *)
Definition strip (cs : list ascii) (s : string) : string :=
  rstrip cs (lstrip cs s).

(** A continuation byte of a UTF-8 sequence: [10xxxxxx]. *)
Definition is_continuation (c : ascii) : bool :=
  (128 <=? nat_of_ascii c)%nat && (nat_of_ascii c <? 192)%nat.

(** [len(s)]: the number of characters of [s], one for each byte that
    starts a sequence. *)
Fixpoint len (s : string) : nat :=
  match s with
  | EmptyString => O
  | String c s' => if is_continuation c then len s' else S (len s')
  end.

(** [s[:n]] for [n >= 0]: the first [n] characters, each with its
    continuation bytes. *)
Fixpoint take (n : nat) (s : string) : string :=
  match s with
  | EmptyString => EmptyString
  | String c s' =>
      if is_continuation c then String c (take n s')
      else match n with
           | O => EmptyString
           | S n' => String c (take n' s')
           end
  end.

(** Whether a byte string decodes as UTF-8 (the strict codec of Python:
    no overlong form, no surrogate, nothing above U+10FFFF).  [pending] is
    the number of continuation bytes still due, [lo] and [hi] bound the
    next one. *)
Fixpoint utf8_from (pending lo hi : nat) (s : string) : bool :=
  match s with
  | EmptyString => (pending =? 0)%nat
  | String c s' =>
      let n := nat_of_ascii c in
      match pending with
      | O =>
          if (n <? 128)%nat then utf8_from 0 128 191 s'
          else if (n <? 194)%nat then false
          else if (n <? 224)%nat then utf8_from 1 128 191 s'
          else if (n =? 224)%nat then utf8_from 2 160 191 s'
          else if (n =? 237)%nat then utf8_from 2 128 159 s'
          else if (n <? 240)%nat then utf8_from 2 128 191 s'
          else if (n =? 240)%nat then utf8_from 3 144 191 s'
          else if (n <? 244)%nat then utf8_from 3 128 191 s'
          else if (n =? 244)%nat then utf8_from 3 128 143 s'
          else false
      | S k =>
          if (lo <=? n)%nat && (n <=? hi)%nat then utf8_from k 128 191 s'
          else false
      end
  end.

Definition is_utf8 (s : string) : bool := utf8_from 0 128 191 s.

(** [s.rfind('.')], counted from the left; [None] is Python's [-1]. *)
Fixpoint rfind_dot (s : string) : option nat :=
  match s with
  | EmptyString => None
  | String c s' =>
      match rfind_dot s' with
      | Some i => Some (S i)
      | None => if Ascii.eqb c "."%char then Some O else None
      end
  end.

(** [s or d] *)
Definition or_else (s d : string) : string :=
  match s with EmptyString => d | _ => s end.

(** The run of leading characters of [s] that satisfy [ok] *)
Fixpoint span (ok : ascii → bool) (s : string) : string :=
  match s with
  | EmptyString => EmptyString
  | String c s' => if ok c then String c (span ok s') else EmptyString
  end.

Fixpoint drop (n : nat) (s : string) : string :=
  match n, s with
  | O, _ => s
  | S n', String _ s' => drop n' s'
  | S _, EmptyString => EmptyString
  end.

(** [re.search(lit + '([class]+)', s)]: group 1 of the leftmost match,
    where [lit] is a literal and [class] the characters accepted by
    [ok]. *)
Fixpoint search_group (lit : string) (ok : ascii → bool) (s : string)
    : option string :=
  let here :=
    if String.prefix lit s
    then match span ok (drop (String.length lit) s) with
         | EmptyString => None
         | g => Some g
         end
    else None in
  match here with
  | Some g => Some g
  | None => match s with
            | EmptyString => None
            | String _ s' => search_group lit ok s'
            end
  end.

Definition between (lo hi c : ascii) : bool :=
  (nat_of_ascii lo <=? nat_of_ascii c)%nat && (nat_of_ascii c <=? nat_of_ascii hi)%nat.

(** The class [a-zA-Z0-9] *)
Definition is_alnum (c : ascii) : bool :=
  between "a" "z" c || between "A" "Z" c || between "0" "9" c.

(** [sep.join(l)] *)
Definition join (sep : string) (l : list string) : string := String.concat sep l.

(** [str(n)] for a non-negative counter *)
Definition of_nat (n : nat) : string := pretty n.

End PyStr.

(** ** Exceptions and results *)

Inductive exn : Type :=
| FileNotFoundError
| IsADirectoryError
| NotADirectoryError
| FileExistsError
| PermissionError
| OSError         (** [ENAMETOOLONG]: a path component longer than the file
                      system allows *)
| JSONDecodeError
| UnicodeDecodeError
| TypeError       (** a required constructor argument is missing *)
| AttributeError  (** [.get] on a document that is not an object *)
| ValueError      (** [relative_to] a directory the path is not under *)
| DownloadError   (** raised by yt-dlp, the Spotify client or HTTP *)
| Diverges        (** the fuel of a modelled [while] loop ran out; the
                      loops below are shown never to get here *)
| IllTyped.       (** a manifest field whose JSON type the declared field
                      type cannot hold: Python would store it unchecked, the
                      typed records below cannot *)

Inductive res (A : Type) : Type :=
| Ok (a : A)
| Exc (e : exn).
Arguments Ok {A} a.
Arguments Exc {A} e.

(** Sequencing: an exception ends the computation.  With these instances
    [x ← r; k] is stdpp's monadic bind at [res]. *)
#[global] Instance res_ret : MRet res := λ A a, Ok a.
#[global] Instance res_bind : MBind res := λ A B k r,
  match r with Ok a => k a | Exc e => Exc e end.

(** ** Paths ([pathlib.PurePath], lexical operations only) *)

Abbreviation path := (list string).

Module Path.

Abbreviation t := (list string).

(** [p / s], for a single component [s] *)
Definition join (p : path) (s : string) : path := (p ++ [s])%list.

(** [p.parent] *)
Definition parent (p : path) : path := removelast p.

(** [p.name] *)
Definition name (p : path) : string := List.last p "".

(** [p.suffix]: from the last dot of the name, unless that dot is the
    first or the last character. *)
Definition suffix (p : path) : string :=
  let n := name p in
  match PyStr.rfind_dot n with
  | Some i =>
      if (0 <? Z.of_nat i) && (Z.of_nat i <? Z.of_nat (String.length n) - 1)
      then String.substring i (String.length n - i) n
      else ""
  | None => ""
  end.

(** [p.stem] *)
Definition stem (p : path) : string :=
  let n := name p in
  String.substring 0 (String.length n - String.length (suffix p)) n.

(** [str(p.relative_to(dir))] *)
Definition relative_to (p dir : path) : res string :=
  if bool_decide (dir `prefix_of` p)
  then Ok (String.concat "/" (drop (length dir) p))
  else Exc ValueError.

(** [p.with_suffix(suf)] (the name is not empty in any call of the
    sources, so the [ValueError] of an empty name is left out). *)
Definition with_suffix (p : path) (suf : string) : path :=
  join (parent p) (stem p ++ suf).

End Path.

Infix "/:" := Path.join (at level 40, left associativity).

(** ** JSON values, as [json.load] returns them and [json.dump] takes them *)

Inductive json : Type :=
| JNull
| JBool (b : bool)
| JInt (z : Z)
| JFloat (f : float)
| JStr (s : string)
| JArr (l : list json)
| JObj (kvs : list (string * json)).

Module Json.

Definition is_null (j : json) : bool :=
  match j with JNull => true | _ => false end.

(** Python truthiness of a loaded document ([if not data]). *)
Definition truthy (j : json) : bool :=
  match j with
  | JNull => false
  | JBool b => b
  | JInt z => negb (z =? 0)
  | JFloat f => negb (PrimFloat.eqb f 0)
  | JStr s => negb (String.eqb s "")
  | JArr l => match l with [] => false | _ => true end
  | JObj kvs => match kvs with [] => false | _ => true end
  end.

(** [d.get(k)] on a dict held as its item list (keys are unique). *)
Fixpoint get (k : string) (d : list (string * json)) : option json :=
  match d with
  | [] => None
  | (k', v) :: d' => if String.eqb k' k then Some v else get k d'
  end.

Definition of_opt {A} (f : A → json) (o : option A) : json :=
  match o with Some a => f a | None => JNull end.

(** The dict comprehension [{k: v for k, v in d.items() if v is not None}] *)
Definition drop_none (d : list (string * json)) : list (string * json) :=
  List.filter (λ kv, negb (is_null kv.2)) d.

End Json.

(** ** The file system *)

Inductive content : Type :=
| Json (j : json)          (** a file holding a JSON document *)
| Bytes (b : string).      (** a file that holds no JSON document, named by
                               its bytes *)

Inductive node : Type :=
| Dir
| File (c : content).

(** [denied] lists the paths the process may not open, for reading or for
    writing: [open] raises [PermissionError] there, which is how a failing
    save and an unreadable file are exercised. *)
Record fsys : Type := mkFsys {
  nodes : gmap path node;
  denied : gset path
}.

Module Fs.

Definition with_nodes (fs : fsys) (m : gmap path node) : fsys :=
  {| nodes := m; denied := denied fs |}.

(** [p.exists()] *)
Definition exists_ (fs : fsys) (p : path) : bool :=
  match nodes fs !! p with Some _ => true | None => false end.

Definition is_dir (fs : fsys) (p : path) : bool :=
  match nodes fs !! p with Some Dir => true | _ => false end.

Definition is_file (fs : fsys) (p : path) : bool :=
  match nodes fs !! p with Some (File _) => true | _ => false end.

(** The most bytes a path component may have (Linux: 255). *)
Definition NAME_MAX : nat := 255.

(** A path the file system cannot hold: creating or opening it raises
    [OSError].  No node has such a path, and [exists_] answers [false]
    for it; where [Path.exists] itself raises [OSError] for it, that is
    the error that [mkdir] raises next in [create_playlist_folder]. *)
Definition name_too_long (p : path) : bool :=
  existsb (λ s, (NAME_MAX <? String.length s)%nat) p.

(** [open(p, 'rb')] (or ['r']) followed by reading all of it *)
Definition read (fs : fsys) (p : path) : res content :=
  match nodes fs !! p with
  | Some (File c) =>
      if bool_decide (p ∈ denied fs) then Exc PermissionError else Ok c
  | Some Dir => Exc IsADirectoryError
  | None => if name_too_long p then Exc OSError else Exc FileNotFoundError
  end.

(** [open(p, 'w')] followed by writing [c] *)
Definition write (fs : fsys) (p : path) (c : content) : res fsys :=
  if name_too_long p then Exc OSError
  else if bool_decide (p ∈ denied fs) then Exc PermissionError
  else if is_dir fs p then Exc IsADirectoryError
  else if negb (is_dir fs (Path.parent p)) then Exc FileNotFoundError
  else Ok (with_nodes fs (<[p := File c]> (nodes fs))).

(** [shutil.copy2(src, dst)] *)
Definition copy2 (fs : fsys) (src dst : path) : res fsys :=
  c ← read fs src; write fs dst c.

(** [src.replace(dst)] for a regular file [src] *)
Definition replace (fs : fsys) (src dst : path) : res fsys :=
  c ← read fs src;
  fs' ← write fs dst c;
  Ok (with_nodes fs' (delete src (nodes fs'))).

(** [p.unlink()] *)
Definition unlink (fs : fsys) (p : path) : res fsys :=
  match nodes fs !! p with
  | Some (File _) => Ok (with_nodes fs (delete p (nodes fs)))
  | Some Dir => Exc IsADirectoryError
  | None => if name_too_long p then Exc OSError else Exc FileNotFoundError
  end.

(** The non-empty prefixes of [p]: its ancestors below the root, and
    [p] itself. *)
Definition ancestors_and_self (p : path) : list path :=
  map (λ n, firstn n p) (seq 1 (length p)).

(** [p.mkdir(parents=True, exist_ok=True)] and [os.makedirs(p,
    exist_ok=True)]; the missing ancestors are created with it. *)
Definition mkdir (fs : fsys) (p : path) : res fsys :=
  if name_too_long p then Exc OSError
  else if is_file fs p then Exc FileExistsError
  else if existsb (is_file fs) (ancestors_and_self p)
  then Exc NotADirectoryError
  else
    Ok (with_nodes fs
          (foldr (λ q m, match m !! q with
                         | Some _ => m
                         | None => <[q := Dir]> m
                         end)
                 (nodes fs)
                 (ancestors_and_self p))).

(** Every node below the top level lies in a directory. *)
Definition tree (fs : fsys) : Prop :=
  ∀ p n, nodes fs !! p = Some n →
         Path.parent p = [] ∨ nodes fs !! Path.parent p = Some Dir.

(** A disk on which the playlists directory [base] can be made and
    written: a tree, with no access refused and no regular file on the way
    to [base], whose components the file system can hold. *)
Definition sound (fs : fsys) (base : path) : Prop :=
  denied fs = ∅
  ∧ tree fs
  ∧ (∀ q, q `prefix_of` base → is_file fs q = false)
  ∧ name_too_long base = false.

(** [shutil.rmtree(p)] *)
Definition rmtree (fs : fsys) (p : path) : fsys :=
  with_nodes fs (filter (λ kv, ¬ p `prefix_of` kv.1) (nodes fs)).

End Fs.

(** ** [src/utils/file_utils.py] *)

(** [hashlib.sha256], from the content of a file to the hex digest *)
Class Sha256 := { hexdigest : content → string }.

Module FileUtils.

(** [os.path.expanduser("~/Music/Playlists")] below the home directory *)
Definition playlists_directory (home : path) : path :=
  home /: "Music" /: "Playlists".

Definition get_playlists_directory (home : path) (fs : fsys) : res (path * fsys) :=
  fs' ← Fs.mkdir fs (playlists_directory home);
  Ok (playlists_directory home, fs').

(** [invalid_chars]: less-than, greater-than, colon, double quote
    (code 34), slash, backslash, bar, question mark, star. *)
Definition invalid_chars : list ascii :=
  ["<"; ">"; ":"; ascii_of_nat 34; "/"; "\"; "|"; "?"; "*"]%char.

(** The replaced and the stripped characters are ASCII, so acting on
    the bytes is acting on the characters; the limit of 100 is one on
    characters. *)
Definition sanitize_filename (filename : string) : string :=
  let filename := PyStr.replace_chars invalid_chars "_"%char filename in
  let filename := PyStr.strip ["."; " "]%char filename in
  let filename :=
    if (100 <? Z.of_nat (PyStr.len filename))
    then PyStr.take 100 filename else filename in
  PyStr.or_else filename "Untitled".

(** [get_file_hash]: the file is opened and read; what [open] raises
    propagates. *)
Definition get_file_hash `{Sha256} (fs : fsys) (filepath : path) : res string :=
  c ← Fs.read fs filepath;
  Ok (hexdigest c).

(** The candidate directory tried after [counter - 1] collisions:
    [base_dir / f"{sanitize_filename(name)}_{counter}"] *)
Definition numbered (base_dir : path) (san : string) (counter : nat) : path :=
  base_dir /: (san ++ "_" ++ PyStr.of_nat counter).

(** The loop [while playlist_dir.exists(): ...] of
    [create_playlist_folder], one iteration per unit of fuel. *)
Fixpoint first_free (fuel : nat) (fs : fsys) (base_dir : path) (san : string)
    (playlist_dir : path) (counter : nat) : option path :=
  match fuel with
  | O => None
  | S fuel' =>
      if Fs.exists_ fs playlist_dir
      then first_free fuel' fs base_dir san
             (numbered base_dir san counter) (S counter)
      else Some playlist_dir
  end.

(** One more iteration than the file system has nodes is always enough
    (lemma [first_free_total]).  A candidate too long for the file system
    is not there, and [mkdir] raises for it. *)
Definition create_playlist_folder (home : path) (name : string) (fs : fsys)
    : res (path * fsys) :=
  '(base_dir, fs) ← get_playlists_directory home fs;
  let san := sanitize_filename name in
  match first_free (S (size (nodes fs))) fs base_dir san (base_dir /: san) 1 with
  | None => Exc Diverges
  | Some playlist_dir =>
      fs' ← Fs.mkdir fs playlist_dir;
      Ok (playlist_dir, fs')
  end.

(** [load_json]: [None] for a missing file and for text that is no JSON
    document ([JSONDecodeError]); a file that is not UTF-8 makes the text
    reader raise [UnicodeDecodeError], which like every other error
    propagates. *)
Definition load_json (fs : fsys) (filepath : path) : res (option json) :=
  match Fs.read fs filepath with
  | Ok (Json j) => Ok (Some j)
  | Ok (Bytes b) => if PyStr.is_utf8 b then Ok None else Exc UnicodeDecodeError
  | Exc FileNotFoundError => Ok None
  | Exc e => Exc e
  end.

(** [save_json] with [backup=True]: copy the old file to [.json.bak],
    write [.json.tmp], rename it over the file.  Every exception is
    caught and answered [False]; what was written before it stays. *)
Definition save_json (fs : fsys) (filepath : path) (data : json) : bool * fsys :=
  let backed_up :=
    if Fs.exists_ fs filepath
    then Fs.copy2 fs filepath (Path.with_suffix filepath ".json.bak")
    else Ok fs in
  match backed_up with
  | Exc _ => (false, fs)
  | Ok fs1 =>
      let temp_path := Path.with_suffix filepath ".json.tmp" in
      match Fs.write fs1 temp_path (Json data) with
      | Exc _ => (false, fs1)
      | Ok fs2 =>
          match Fs.replace fs2 temp_path filepath with
          | Exc _ => (false, fs2)
          | Ok fs3 => (true, fs3)
          end
      end
  end.

Definition validate_playlist_structure (fs : fsys) (playlist_dir : path) : bool :=
  Fs.is_file fs (playlist_dir /: "playlist.json").

End FileUtils.

(** ** Python numbers *)

Module PyNum.

(** [float(z)] (exact below 2^53 in absolute value) *)
Definition of_int (z : Z) : float :=
  if z <? 0 then PrimFloat.opp (PrimFloat.of_uint63 (Uint63.of_Z (- z)))
  else PrimFloat.of_uint63 (Uint63.of_Z z).

(** [a / b] on two ints, for [b] other than zero *)
Definition truediv (a b : Z) : float := PrimFloat.div (of_int a) (of_int b).

End PyNum.

(** The built-in [sum] on floats.  CPython up to 3.11 adds from left to
    right, CPython 3.12 and later use compensated summation; the store only
    needs that it is some function of the list. *)
Class Runtime := { py_sum : list float → float }.

(** ** Decoding manifest fields into the declared field types *)

Module Dec.

Definition str (o : option json) (default : res string) : res string :=
  match o with
  | None => default
  | Some (JStr s) => Ok s
  | Some _ => Exc IllTyped
  end.

Definition opt_str (o : option json) : res (option string) :=
  match o with
  | None | Some JNull => Ok None
  | Some (JStr s) => Ok (Some s)
  | Some _ => Exc IllTyped
  end.

Definition int (o : option json) (default : Z) : res Z :=
  match o with
  | None => Ok default
  | Some (JInt z) => Ok z
  | Some _ => Exc IllTyped
  end.

Definition opt_int (o : option json) : res (option Z) :=
  match o with
  | None | Some JNull => Ok None
  | Some (JInt z) => Ok (Some z)
  | Some _ => Exc IllTyped
  end.

(** An int stored in a float field is read as the float of that value. *)
Definition float_ (o : option json) (default : float) : res float :=
  match o with
  | None => Ok default
  | Some (JFloat f) => Ok f
  | Some (JInt z) => Ok (PyNum.of_int z)
  | Some _ => Exc IllTyped
  end.

Definition bool_ (o : option json) (default : bool) : res bool :=
  match o with
  | None => Ok default
  | Some (JBool b) => Ok b
  | Some _ => Exc IllTyped
  end.

Fixpoint each {A} (f : json → res A) (l : list json) : res (list A) :=
  match l with
  | [] => Ok []
  | j :: l' => a ← f j; r ← each f l'; Ok (a :: r)
  end.

Definition list_ {A} (f : json → res A) (o : option json) : res (list A) :=
  match o with
  | None => Ok []
  | Some (JArr l) => each f l
  | Some _ => Exc IllTyped
  end.

Definition str_item (j : json) : res string :=
  match j with JStr s => Ok s | _ => Exc IllTyped end.

(** The items of a document that has to be a dict. *)
Definition obj (j : json) : res (list (string * json)) :=
  match j with JObj kvs => Ok kvs | _ => Exc AttributeError end.

End Dec.

(** ** [src/core/playlist_manager.py] *)

(** What [MetadataUtils.read_metadata] returns, as [Track.from_file] reads
    it: the title is always a string (the file stem stands in for a missing
    tag), the duration defaults to 0. *)
Record metadata : Type := mkMetadata {
  md_title : string;
  md_artist : option string;
  md_album : option string;
  md_duration : float;
  md_track_number : option Z;
  md_year : option Z;
  md_genre : option string
}.

(** The tag capability: the metadata of a file on disk.  [read_metadata]
    answers an unreadable file from its name, and raises where that fails
    ([int] of a digit that is no decimal digit). *)
Class TagReader := {
  read_metadata : fsys → path → res metadata
}.

Module Track.

Record t : Type := mk {
  filename : string;
  title : string;
  artist : option string;
  album : option string;
  duration : float;
  track_number : option Z;
  year : option Z;
  genre : option string;
  downloaded_date : option string;
  source_id : option string;
  file_hash : option string;
  play_count : Z;
  skip_count : Z;
  last_played : option string
}.

(** [dataclasses.asdict], in field order *)
Definition asdict (self : t) : list (string * json) :=
  [ ("filename", JStr (filename self));
    ("title", JStr (title self));
    ("artist", Json.of_opt JStr (artist self));
    ("album", Json.of_opt JStr (album self));
    ("duration", JFloat (duration self));
    ("track_number", Json.of_opt JInt (track_number self));
    ("year", Json.of_opt JInt (year self));
    ("genre", Json.of_opt JStr (genre self));
    ("downloaded_date", Json.of_opt JStr (downloaded_date self));
    ("source_id", Json.of_opt JStr (source_id self));
    ("file_hash", Json.of_opt JStr (file_hash self));
    ("play_count", JInt (play_count self));
    ("skip_count", JInt (skip_count self));
    ("last_played", Json.of_opt JStr (last_played self)) ].

Definition to_dict (self : t) : list (string * json) :=
  Json.drop_none (asdict self).

(** The constructor applied to the items of [data] whose key is an
    annotated field: only those keys are read, and [filename] and [title]
    have no default. *)
Definition from_dict (data : list (string * json)) : res t :=
  filename ← Dec.str (Json.get "filename" data) (Exc TypeError);
  title ← Dec.str (Json.get "title" data) (Exc TypeError);
  artist ← Dec.opt_str (Json.get "artist" data);
  album ← Dec.opt_str (Json.get "album" data);
  duration ← Dec.float_ (Json.get "duration" data) 0;
  track_number ← Dec.opt_int (Json.get "track_number" data);
  year ← Dec.opt_int (Json.get "year" data);
  genre ← Dec.opt_str (Json.get "genre" data);
  downloaded_date ← Dec.opt_str (Json.get "downloaded_date" data);
  source_id ← Dec.opt_str (Json.get "source_id" data);
  file_hash ← Dec.opt_str (Json.get "file_hash" data);
  play_count ← Dec.int (Json.get "play_count" data) 0;
  skip_count ← Dec.int (Json.get "skip_count" data) 0;
  last_played ← Dec.opt_str (Json.get "last_played" data);
  Ok (mk filename title artist album duration track_number year genre
         downloaded_date source_id file_hash play_count skip_count
         last_played).

Definition from_file `{TagReader} `{Sha256} (fs : fsys) (now : string)
    (filepath playlist_dir : path) : res t :=
  metadata ← read_metadata fs filepath;
  relative_path ← Path.relative_to filepath playlist_dir;
  file_hash ← FileUtils.get_file_hash fs filepath;
  Ok {| filename := relative_path;
        title := md_title metadata;
        artist := md_artist metadata;
        album := md_album metadata;
        duration := md_duration metadata;
        track_number := md_track_number metadata;
        year := md_year metadata;
        genre := md_genre metadata;
        downloaded_date := Some now;
        source_id := None;
        file_hash := Some file_hash;
        play_count := 0;
        skip_count := 0;
        last_played := None |}.

End Track.

Module PlaylistSettings.

Record t : Type := mk {
  shuffle_enabled : bool;
  repeat_mode : string;
  volume : float;
  equalizer_preset : string
}.

Definition default : t :=
  {| shuffle_enabled := false;
     repeat_mode := "none";
     volume := 0.8;
     equalizer_preset := "default" |}.

Definition to_dict (self : t) : list (string * json) :=
  [ ("shuffle_enabled", JBool (shuffle_enabled self));
    ("repeat_mode", JStr (repeat_mode self));
    ("volume", JFloat (volume self));
    ("equalizer_preset", JStr (equalizer_preset self)) ].

Definition from_dict (data : list (string * json)) : res t :=
  shuffle_enabled ← Dec.bool_ (Json.get "shuffle_enabled" data) false;
  repeat_mode ← Dec.str (Json.get "repeat_mode" data) (Ok "none");
  volume ← Dec.float_ (Json.get "volume" data) 0.8;
  equalizer_preset ← Dec.str (Json.get "equalizer_preset" data) (Ok "default");
  Ok (mk shuffle_enabled repeat_mode volume equalizer_preset).

End PlaylistSettings.

Module PlaylistSource.

Record t : Type := mk {
  type : string;
  url : option string;
  last_sync : option string
}.

Definition asdict (self : t) : list (string * json) :=
  [ ("type", JStr (type self));
    ("url", Json.of_opt JStr (url self));
    ("last_sync", Json.of_opt JStr (last_sync self)) ].

Definition to_dict (self : t) : list (string * json) :=
  Json.drop_none (asdict self).

Definition from_dict (data : list (string * json)) : res t :=
  type ← Dec.str (Json.get "type" data) (Exc TypeError);
  url ← Dec.opt_str (Json.get "url" data);
  last_sync ← Dec.opt_str (Json.get "last_sync" data);
  Ok (mk type url last_sync).

End PlaylistSource.

(** Python list methods at an index already checked to be non-negative. *)
Module PyList.

(** [l.pop(i)]: the list without its [i]-th element *)
Definition pop {A} (i : nat) (l : list A) : list A := delete i l.

(** [l.insert(i, x)]: [x] ends up at index [i], or last when [i] is
    beyond the end *)
Definition insert {A} (i : nat) (x : A) (l : list A) : list A :=
  (take i l ++ x :: drop i l)%list.

(** [x = l.pop(old)] followed by [l.insert(new, x)] *)
Definition moved {A} (l : list A) (old new : nat) (x : A) : list A :=
  insert new x (pop old l).

End PyList.

Module Playlist.

Record t : Type := mk {
  path : Path.t;
  name : string;
  description : string;
  created_date : string;
  modified_date : string;
  cover_image : option string;
  total_duration : float;
  track_count : Z;
  source : PlaylistSource.t;
  settings : PlaylistSettings.t;
  tracks : list Track.t;
  tags : list string
}.

Definition with_tracks (self : t) (l : list Track.t) : t :=
  mk (path self) (name self) (description self) (created_date self)
     (modified_date self) (cover_image self) (total_duration self)
     (track_count self) (source self) (settings self) l (tags self).

Definition with_name (self : t) (n d : string) : t :=
  mk (path self) n d (created_date self)
     (modified_date self) (cover_image self) (total_duration self)
     (track_count self) (source self) (settings self) (tracks self)
     (tags self).

Definition json_path (self : t) : Path.t := path self /: "playlist.json".

(** [load]: the manifest fields, each with the default of the source. *)
Definition load (self : t) (fs : fsys) : res (bool * t) :=
  data ← FileUtils.load_json fs (json_path self);
  match data with
  | None => Ok (false, self)
  | Some j =>
      if negb (Json.truthy j) then Ok (false, self)
      else
        data ← Dec.obj j;
        name ← Dec.str (Json.get "name" data) (Ok (name self));
        description ← Dec.str (Json.get "description" data) (Ok "");
        created_date ←
          Dec.str (Json.get "created_date" data) (Ok (created_date self));
        modified_date ←
          Dec.str (Json.get "modified_date" data) (Ok (modified_date self));
        cover_image ← Dec.opt_str (Json.get "cover_image" data);
        total_duration ← Dec.float_ (Json.get "total_duration" data) 0;
        track_count ← Dec.int (Json.get "track_count" data) 0;
        tags ← Dec.list_ Dec.str_item (Json.get "tags" data);
        source ←
          match Json.get "source" data with
          | None => Ok (source self)
          | Some j => d ← Dec.obj j; PlaylistSource.from_dict d
          end;
        settings ←
          match Json.get "settings" data with
          | None => Ok (settings self)
          | Some j => d ← Dec.obj j; PlaylistSettings.from_dict d
          end;
        tracks ←
          Dec.list_ (λ j, d ← Dec.obj j; Track.from_dict d)
                    (Json.get "tracks" data);
        Ok (true,
            mk (path self) name description created_date modified_date
               cover_image total_duration track_count source settings
               tracks tags)
  end.

(** [Playlist(path)]: the defaults, then [load] when the directory
    exists (its answer is not looked at). *)
Definition init (p : Path.t) (now : string) (fs : fsys) : res t :=
  let self :=
    {| path := p;
       name := Path.name p;
       description := "";
       created_date := now;
       modified_date := now;
       cover_image := None;
       total_duration := 0;
       track_count := 0;
       source := PlaylistSource.mk "manual" None None;
       settings := PlaylistSettings.default;
       tracks := [];
       tags := [] |} in
  if Fs.exists_ fs p then '(_, self) ← load self fs; Ok self
  else Ok self.

(** The object after the first three assignments of [save]. *)
Definition refreshed `{Runtime} (self : t) (now : string) : t :=
  mk (path self) (name self) (description self) (created_date self)
     now (cover_image self)
     (py_sum (map Track.duration (tracks self)))
     (Z.of_nat (length (tracks self)))
     (source self) (settings self) (tracks self) (tags self).

(** The dict [data] that [save] serialises. *)
Definition manifest (self : t) : json :=
  JObj [ ("name", JStr (name self));
         ("description", JStr (description self));
         ("created_date", JStr (created_date self));
         ("modified_date", JStr (modified_date self));
         ("cover_image", Json.of_opt JStr (cover_image self));
         ("total_duration", JFloat (total_duration self));
         ("track_count", JInt (track_count self));
         ("tags", JArr (map JStr (tags self)));
         ("source", JObj (PlaylistSource.to_dict (source self)));
         ("settings", JObj (PlaylistSettings.to_dict (settings self)));
         ("tracks", JArr (map (λ tr, JObj (Track.to_dict tr)) (tracks self))) ].

Definition save `{Runtime} (self : t) (now : string) (fs : fsys)
    : bool * t * fsys :=
  let self := refreshed self now in
  let '(ok, fs) := FileUtils.save_json fs (json_path self) (manifest self) in
  (ok, self, fs).

Definition add_track `{Runtime} `{TagReader} `{Sha256} (self : t)
    (audio_file : Path.t)
    (now : string) (fs : fsys) : res (bool * t * fsys) :=
  if negb (Fs.exists_ fs audio_file) then Ok (false, self, fs)
  else
    let copied :=
      if bool_decide (Path.parent audio_file ≠ path self) then
        let dest_path := path self /: Path.name audio_file in
        if Fs.exists_ fs dest_path then Ok None
        else fs ← Fs.copy2 fs audio_file dest_path; Ok (Some (dest_path, fs))
      else Ok (Some (audio_file, fs)) in
    c ← copied;
    match c with
    | None => Ok (false, self, fs)
    | Some (audio_file, fs) =>
        track ← Track.from_file fs now audio_file (path self);
        Ok (save (with_tracks self (tracks self ++ [track])%list) now fs)
    end.

Definition remove_track `{Runtime} (self : t) (index : Z) (delete_file : bool)
    (now : string) (fs : fsys) : res (bool * t * fsys) :=
  if (index <? 0) || (Z.of_nat (length (tracks self)) <=? index)
  then Ok (false, self, fs)
  else
    match tracks self !! Z.to_nat index with
    | None => Ok (false, self, fs)
    | Some track =>
        let file_path := path self /: Track.filename track in
        fs ← (if delete_file && Fs.exists_ fs file_path
              then Fs.unlink fs file_path else Ok fs);
        Ok (save (with_tracks self (PyList.pop (Z.to_nat index) (tracks self)))
                 now fs)
    end.

Definition reorder_tracks `{Runtime} (self : t) (old_index new_index : Z)
    (now : string) (fs : fsys) : bool * t * fsys :=
  if (old_index <? 0) || (Z.of_nat (length (tracks self)) <=? old_index)
  then (false, self, fs)
  else if (new_index <? 0) || (Z.of_nat (length (tracks self)) <=? new_index)
  then (false, self, fs)
  else
    match tracks self !! Z.to_nat old_index with
    | None => (false, self, fs)
    | Some track =>
        save (with_tracks self
                (PyList.insert (Z.to_nat new_index) track
                   (PyList.pop (Z.to_nat old_index) (tracks self))))
             now fs
    end.

Definition get_track_path (self : t) (index : Z) : option Path.t :=
  if (0 <=? index) && (index <? Z.of_nat (length (tracks self)))
  then (λ tr, path self /: Track.filename tr) <$> tracks self !! Z.to_nat index
  else None.

End Playlist.

Module PlaylistManager.

Record t : Type := mk {
  playlists_dir : Path.t;
  playlists : gmap string Playlist.t
}.

(** [create_playlist]: [None] is the source's [return None] after a
    failed first save, whose directory is removed again. *)
Definition create_playlist `{Runtime} (self : t) (home : Path.t)
    (name description now : string) (fs : fsys)
    : res (option Playlist.t * t * fsys) :=
  '(playlist_dir, fs) ← FileUtils.create_playlist_folder home name fs;
  playlist ← Playlist.init playlist_dir now fs;
  let playlist := Playlist.with_name playlist name description in
  let '(ok, playlist, fs) := Playlist.save playlist now fs in
  if negb ok then Ok (None, self, Fs.rmtree fs playlist_dir)
  else
    Ok (Some playlist,
        mk (playlists_dir self)
           (<[Playlist.name playlist := playlist]> (playlists self)),
        fs).

(** [self.playlists.get(name)] *)
Definition get_playlist (self : t) (name : string) : option Playlist.t :=
  playlists self !! name.

End PlaylistManager.

(** ** [src/core/downloader.py] *)

Module DownloadProgress.

Record t : Type := mk {
  total_tracks : Z;
  completed_tracks : Z;
  current_track : string;
  current_progress : float;
  errors : list string;
  skipped : list string
}.

Definition init : t := mk 0 0 "" 0 [] [].

(** The derived entry of [to_dict] *)
Definition overall_progress (self : t) : float :=
  if 0 <? total_tracks self
  then PrimFloat.mul (PyNum.truediv (completed_tracks self) (total_tracks self)) 100
  else 0.

Definition set_totals (self : t) (total : Z) : t :=
  mk total 0 (current_track self) (current_progress self)
     (errors self) (skipped self).

Definition set_current_track (self : t) (label : string) : t :=
  mk (total_tracks self) (completed_tracks self) label
     (current_progress self) (errors self) (skipped self).

Definition set_current_progress (self : t) (pct : float) : t :=
  mk (total_tracks self) (completed_tracks self) (current_track self)
     pct (errors self) (skipped self).

Definition complete_one (self : t) : t :=
  mk (total_tracks self) (completed_tracks self + 1) (current_track self)
     (current_progress self) (errors self) (skipped self).

Definition add_error (self : t) (msg : string) : t :=
  mk (total_tracks self) (completed_tracks self) (current_track self)
     (current_progress self) (errors self ++ [msg])%list (skipped self).

End DownloadProgress.

(** *** What the external services hand to the downloader *)

(** The dict a yt-dlp progress hook receives; a missing byte count reads 0,
    as [d.get(k, 0)] does. *)
Record hook_event : Type := mkHook {
  hk_status : string;
  hk_total_bytes : Z;
  hk_total_bytes_estimate : Z;
  hk_downloaded_bytes : Z
}.

(** An info dict of yt-dlp: the fields the downloader reads, and the file
    name [ydl.prepare_filename] computes for it. *)
Record ydl_info : Type := mkInfo {
  yi_title : option string;
  yi_artist : option string;
  yi_uploader : option string;
  yi_album : option string;
  yi_duration : option float;
  yi_filename : path
}.

(** One call of [ydl.extract_info(..., download=True)]: its result or
    exception, the hook events it delivered, the file system it left. *)
Record ydl_run (A : Type) : Type := mkRun {
  run_result : res A;
  run_hooks : list hook_event;
  run_fs : fsys
}.
Arguments mkRun {A} _ _ _.
Arguments run_result {A} _.
Arguments run_hooks {A} _.
Arguments run_fs {A} _.

Record yt_entry : Type := mkEntry {
  ye_id : string;
  ye_title : option string
}.

Record yt_playlist : Type := mkYtPlaylist {
  yp_title : option string;
  yp_description : option string;
  yp_thumbnail : option string;
  yp_entries : list (option yt_entry)
}.

Record sp_track : Type := mkSpTrack {
  sp_id : string;
  sp_name : string;
  sp_artists : list string;
  sp_album : string;
  sp_duration_ms : Z;
  sp_track_number : Z
}.

(** A Spotify playlist with all its pages of items gathered; an item whose
    [track] is null is [None]. *)
Record sp_playlist : Type := mkSpPlaylist {
  spl_name : string;
  spl_description : option string;
  spl_images : list string;
  spl_items : list (option sp_track)
}.

(** The fetcher capability: the Spotify web API, yt-dlp, and HTTP. *)
Class Fetcher := {
  spotify_playlist : string → res sp_playlist;
  ydl_flat : string → res yt_playlist;
  ydl_video : fsys → path → string → ydl_run ydl_info;
  ydl_search : fsys → path → string → ydl_run (list ydl_info);
  http_get : string → res string
}.

Module PlaylistDownloader.

(** [spotify] tells whether the client was initialised; [has_callback]
    whether a progress callback is set; [published] lists, oldest first,
    the progress values the callback was called with. *)
Record t : Type := mk {
  progress : DownloadProgress.t;
  has_callback : bool;
  published : list DownloadProgress.t;
  spotify : bool
}.

Definition with_progress (self : t) (p : DownloadProgress.t) : t :=
  mk p (has_callback self) (published self) (spotify self).

(** [if self._progress_callback: self._progress_callback(self.progress)] *)
Definition publish (self : t) : t :=
  if has_callback self
  then mk (progress self) true (published self ++ [progress self])%list
          (spotify self)
  else self.

Definition _ydl_progress_hook (self : t) (d : hook_event) : t :=
  if String.eqb (hk_status d) "downloading" then
    let total :=
      if hk_total_bytes d =? 0 then hk_total_bytes_estimate d
      else hk_total_bytes d in
    if 0 <? total then
      publish (with_progress self
                 (DownloadProgress.set_current_progress (progress self)
                    (PrimFloat.mul
                       (PyNum.truediv (hk_downloaded_bytes d) total) 100)))
    else self
  else if String.eqb (hk_status d) "finished" then
    publish (with_progress self
               (DownloadProgress.set_current_progress (progress self) 100))
  else self.

Definition run_hooks_on (self : t) (ds : list hook_event) : t :=
  fold_left _ydl_progress_hook ds self.

(** The counters of the progress value: completed tracks, errors, total. *)
Definition counters (self : t) : Z * list string * Z :=
  (DownloadProgress.completed_tracks (progress self),
   DownloadProgress.errors (progress self),
   DownloadProgress.total_tracks (progress self)).

Definition identify_service (url : string) : option string :=
  if PyStr.contains "spotify.com" url then Some "spotify"
  else if PyStr.contains "youtube.com" url || PyStr.contains "youtu.be" url
  then Some "youtube"
  else if PyStr.contains "music.youtube.com" url then Some "youtube_music"
  else None.

Definition extract_playlist_id (url service : string) : option string :=
  if String.eqb service "spotify"
  then PyStr.search_group "playlist/" PyStr.is_alnum url
  else if String.eqb service "youtube" || String.eqb service "youtube_music"
  then PyStr.search_group "list="
         (λ c, PyStr.is_alnum c || Ascii.eqb c "_" || Ascii.eqb c "-") url
  else None.

Definition _download_cover_image `{Fetcher} (url : string) (output_path : path)
    (fs : fsys) : bool * fsys :=
  match http_get url with
  | Exc _ => (false, fs)
  | Ok body =>
      match Fs.write fs output_path (Bytes body) with
      | Exc _ => (false, fs)
      | Ok fs' => (true, fs')
      end
  end.

(** [_download_from_youtube]: the [.mp3] of the first search result when
    it is on disk afterwards, [None] otherwise and on any exception. *)
Definition _download_from_youtube `{Fetcher} (self : t) (search_query : string)
    (output_dir : path) (fs : fsys) : option path * t * fsys :=
  let run := ydl_search fs output_dir ("ytsearch:" ++ search_query) in
  let self := run_hooks_on self (run_hooks run) in
  let fs := run_fs run in
  match run_result run with
  | Exc _ => (None, self, fs)
  | Ok [] => (None, self, fs)
  | Ok (entry :: _) =>
      let mp3_filename := Path.with_suffix (yi_filename entry) ".mp3" in
      if Fs.exists_ fs mp3_filename then (Some mp3_filename, self, fs)
      else (None, self, fs)
  end.

Definition default_settings : json :=
  JObj [ ("shuffle_enabled", JBool false);
         ("repeat_mode", JStr "none");
         ("volume", JFloat 0.8);
         ("equalizer_preset", JStr "default") ].

(** The dict [playlist_data] with its track list filled in. *)
Definition playlist_data (name description now : string)
    (cover_image : option string) (type url : string)
    (tracks : list json) : json :=
  JObj [ ("name", JStr name);
         ("description", JStr description);
         ("created_date", JStr now);
         ("modified_date", JStr now);
         ("cover_image", Json.of_opt JStr cover_image);
         ("source", JObj [ ("type", JStr type);
                           ("url", JStr url);
                           ("last_sync", JStr now) ]);
         ("settings", default_settings);
         ("tracks", JArr tracks) ].

(** *** Spotify *)

Definition spotify_track_data (track : sp_track) (downloaded_file : path)
    (now : string) : json :=
  JObj [ ("filename", JStr (Path.name downloaded_file));
         ("title", JStr (sp_name track));
         ("artist", JStr (PyStr.join ", " (sp_artists track)));
         ("album", JStr (sp_album track));
         ("duration", JFloat (PyNum.truediv (sp_duration_ms track) 1000));
         ("track_number", JInt (sp_track_number track));
         ("downloaded_date", JStr now);
         ("source_id", JStr ("spotify:track:" ++ sp_id track)) ].

(** One iteration of the loop [for i, item in enumerate(tracks)]; [acc] is
    [playlist_data['tracks']]. *)
Definition spotify_member `{Fetcher} (playlist_dir : path) (now : string)
    (st : t * list json * fsys) (item : option sp_track) : t * list json * fsys :=
  let '(self, acc, fs) := st in
  match item with
  | None => st
  | Some track =>
      let artist_names := PyStr.join ", " (sp_artists track) in
      let track_name := sp_name track in
      let self :=
        publish (with_progress self
                   (DownloadProgress.set_current_track (progress self)
                      (artist_names ++ " - " ++ track_name))) in
      let search_query := artist_names ++ " " ++ track_name ++ " audio" in
      let '(downloaded_file, self, fs) :=
        _download_from_youtube self search_query playlist_dir fs in
      match downloaded_file with
      | Some file =>
          (publish (with_progress self
                      (DownloadProgress.complete_one (progress self))),
           (acc ++ [spotify_track_data track file now])%list, fs)
      | None =>
          (publish (with_progress self
                      (DownloadProgress.add_error (progress self)
                         ("Failed to download: " ++ track_name))),
           acc, fs)
      end
  end.

Definition download_spotify_playlist `{Fetcher} (self : t) (home : path)
    (url : string) (playlist_name : option string) (now : string) (fs : fsys)
    : option path * t * fsys :=
  if negb (spotify self) then (None, self, fs)
  else
    match extract_playlist_id url "spotify" with
    | None => (None, self, fs)
    | Some playlist_id =>
        match spotify_playlist playlist_id with
        | Exc _ => (None, self, fs)
        | Ok playlist =>
            let name :=
              match playlist_name with
              | Some n => PyStr.or_else n (spl_name playlist)
              | None => spl_name playlist
              end in
            match FileUtils.create_playlist_folder home name fs with
            | Exc _ => (None, self, fs)
            | Ok (playlist_dir, fs) =>
                let tracks := spl_items playlist in
                let fs :=
                  match spl_images playlist with
                  | image :: _ =>
                      (_download_cover_image image (playlist_dir /: "cover.jpg") fs).2
                  | [] => fs
                  end in
                let cover :=
                  match spl_images playlist with
                  | _ :: _ => Some "cover.jpg"
                  | [] => None
                  end in
                let self :=
                  with_progress self
                    (DownloadProgress.set_totals (progress self)
                       (Z.of_nat (length tracks))) in
                let '(self, acc, fs) :=
                  fold_left (spotify_member playlist_dir now) tracks
                            (self, [], fs) in
                let data :=
                  playlist_data name (default "" (spl_description playlist))
                    now cover "spotify" url acc in
                (Some playlist_dir, self,
                 (FileUtils.save_json fs (playlist_dir /: "playlist.json") data).2)
            end
        end
    end.

(** *** YouTube *)

Definition youtube_track_data (entry : yt_entry) (info_dict : ydl_info)
    (mp3_filename : path) (now : string) : json :=
  JObj [ ("filename", JStr (Path.name mp3_filename));
         ("title", JStr (default (Path.stem mp3_filename) (yi_title info_dict)));
         ("artist",
          JStr (match yi_artist info_dict with
                | Some (String c a) => String c a
                | _ => default "Unknown" (yi_uploader info_dict)
                end));
         ("album", JStr (default "" (yi_album info_dict)));
         ("duration", JFloat (default 0%float (yi_duration info_dict)));
         ("downloaded_date", JStr now);
         ("source_id", JStr ("youtube:video:" ++ ye_id entry)) ].

(** One iteration of the loop [for i, entry in enumerate(entries)]. *)
Definition youtube_member `{Fetcher} (playlist_dir : path) (now : string)
    (st : t * list json * fsys) (entry : option yt_entry) : t * list json * fsys :=
  let '(self, acc, fs) := st in
  match entry with
  | None => st
  | Some entry =>
      let video_url := "https://www.youtube.com/watch?v=" ++ ye_id entry in
      let label := default "Unknown" (ye_title entry) in
      let self :=
        publish (with_progress self
                   (DownloadProgress.set_current_track (progress self) label)) in
      let run := ydl_video fs playlist_dir video_url in
      let self := run_hooks_on self (run_hooks run) in
      let fs := run_fs run in
      match run_result run with
      | Ok info_dict =>
          let mp3_filename :=
            Path.with_suffix (yi_filename info_dict) ".mp3" in
          if Fs.exists_ fs mp3_filename then
            (publish (with_progress self
                        (DownloadProgress.complete_one (progress self))),
             (acc ++ [youtube_track_data entry info_dict mp3_filename now])%list,
             fs)
          else (publish self, acc, fs)
      | Exc _ =>
          (publish (with_progress self
                      (DownloadProgress.add_error (progress self)
                         ("Failed: " ++ label))),
           acc, fs)
      end
  end.

Definition download_youtube_playlist `{Fetcher} (self : t) (home : path)
    (url : string) (playlist_name : option string) (now : string) (fs : fsys)
    : option path * t * fsys :=
  match ydl_flat url with
  | Exc _ => (None, self, fs)
  | Ok info =>
      let name :=
        match playlist_name with
        | Some (String c n) => String c n
        | _ => default "YouTube Playlist" (yp_title info)
        end in
      match FileUtils.create_playlist_folder home name fs with
      | Exc _ => (None, self, fs)
      | Ok (playlist_dir, fs) =>
          let fs :=
            match yp_thumbnail info with
            | Some (String c u) =>
                (_download_cover_image (String c u) (playlist_dir /: "cover.jpg") fs).2
            | _ => fs
            end in
          let cover :=
            match yp_thumbnail info with
            | Some (String _ _) => Some "cover.jpg"
            | _ => None
            end in
          let entries := yp_entries info in
          let self :=
            with_progress self
              (DownloadProgress.set_totals (progress self)
                 (Z.of_nat (length entries))) in
          let '(self, acc, fs) :=
            fold_left (youtube_member playlist_dir now) entries
                      (self, [], fs) in
          let data :=
            playlist_data name (default "" (yp_description info)) now cover
              (if PyStr.contains "music.youtube.com" url
               then "youtube_music" else "youtube")
              url acc in
          (Some playlist_dir, self,
           (FileUtils.save_json fs (playlist_dir /: "playlist.json") data).2)
      end
  end.

Definition download_playlist `{Fetcher} (self : t) (home : path)
    (url : string) (playlist_name : option string) (now : string) (fs : fsys)
    : option path * t * fsys :=
  match identify_service url with
  | None => (None, self, fs)
  | Some service =>
      let self := with_progress self DownloadProgress.init in
      if String.eqb service "spotify"
      then download_spotify_playlist self home url playlist_name now fs
      else if String.eqb service "youtube" || String.eqb service "youtube_music"
      then download_youtube_playlist self home url playlist_name now fs
      else (None, self, fs)
  end.

End PlaylistDownloader.

(** ** [src/core/audio_player.py] *)

Inductive gst_state : Type := GstNull | GstReady | GstPaused | GstPlaying.

(** The bus messages [on_message] tells apart. *)
Inductive gst_message : Type :=
| MsgEOS
| MsgError (err : string)
| MsgStateChanged (old_state new_state : gst_state)
| MsgOther.

(** The GStreamer [playbin] as the player sees it: the properties it sets,
    the last state it asked for, the seeks it issued (oldest first, in
    nanoseconds), and what the position query answers ([None] when the
    query does not succeed). *)
Record playbin : Type := mkPlaybin {
  uri : option path;
  state : gst_state;
  volume_prop : float;
  seeks : list Z;
  position_ns : option Z
}.

Module AudioPlayer.

(** [Gst.SECOND] *)
Definition SECOND : Z := 1000000000.

Record t : Type := mk {
  pipeline : playbin;
  _current_track : option path;
  _volume : float;
  _is_paused : bool;
  _update_position : bool
}.

(** [__init__]; a fresh [playbin] has volume 1.0 and no URI. *)
Definition init : t :=
  {| pipeline := mkPlaybin None GstNull 1 [] None;
     _current_track := None;
     _volume := 0.8;
     _is_paused := false;
     _update_position := false |}.

Definition set_state (self : t) (st : gst_state) : t :=
  mk (mkPlaybin (uri (pipeline self)) st (volume_prop (pipeline self))
                (seeks (pipeline self)) (position_ns (pipeline self)))
     (_current_track self) (_volume self) (_is_paused self)
     (_update_position self).

Definition play (self : t) (track_path : path) : t :=
  mk (mkPlaybin (Some track_path) GstPlaying (volume_prop (pipeline self))
                (seeks (pipeline self)) (position_ns (pipeline self)))
     (Some track_path) (_volume self) (_is_paused self)
     (_update_position self).

(** [on_message], as far as the player's own state goes: end of stream
    resets the pipeline; the callbacks it calls ([on_end], [on_error],
    [on_start]) belong to the window. *)
Definition on_message (self : t) (message : gst_message) : t :=
  match message with
  | MsgEOS => set_state self GstNull
  | _ => self
  end.

Definition pause (self : t) : t := set_state self GstPaused.

Definition stop (self : t) : t := set_state self GstNull.

(** [if 0 <= level <= 1: ...]; nothing happens otherwise. *)
Definition set_volume (self : t) (level : float) : t :=
  if PrimFloat.leb 0 level && PrimFloat.leb level 1 then
    mk (mkPlaybin (uri (pipeline self)) (state (pipeline self)) level
                  (seeks (pipeline self)) (position_ns (pipeline self)))
       (_current_track self) level (_is_paused self)
       (_update_position self)
  else self.

Definition get_volume (self : t) : float := _volume self.

Definition get_position (self : t) : float :=
  match position_ns (pipeline self) with
  | Some position => PyNum.truediv position SECOND
  | None => 0
  end.

(** [seek], for a whole number of seconds (the sources call it with the
    integer 0 only). *)
Definition seek (self : t) (position_seconds : Z) : t :=
  mk (mkPlaybin (uri (pipeline self)) (state (pipeline self))
                (volume_prop (pipeline self))
                (seeks (pipeline self) ++ [position_seconds * SECOND])%list
                (position_ns (pipeline self)))
     (_current_track self) (_volume self) (_is_paused self)
     (_update_position self).

Definition is_playing (self : t) : bool :=
  match state (pipeline self) with GstPlaying => true | _ => false end.

Definition toggle_play_pause (self : t) : t :=
  if is_playing self then
    let self := pause self in
    mk (pipeline self) (_current_track self) (_volume self) true
       (_update_position self)
  else
    match _is_paused self, _current_track self with
    | true, Some _ =>
        let self := set_state self GstPlaying in
        mk (pipeline self) (_current_track self) (_volume self) false
           (_update_position self)
    | _, _ => self
    end.

(** The flag of [_start_position_updater]; its thread is not part of the
    model. *)
Definition _start_position_updater (self : t) : t :=
  mk (pipeline self) (_current_track self) (_volume self) (_is_paused self)
     true.

(** What can happen to a player: the transport operations a client
    issues, and the messages of the bus. *)
Inductive op : Type :=
| Message (message : gst_message)
| Play (track_path : path)
| Pause
| Stop
| SetVolume (level : float)
| Seek (position_seconds : Z)
| TogglePlayPause.

Definition step (self : t) (o : op) : t :=
  match o with
  | Message m => on_message self m
  | Play p => play self p
  | Pause => pause self
  | Stop => stop self
  | SetVolume level => set_volume self level
  | Seek z => seek self z
  | TogglePlayPause => toggle_play_pause self
  end.

Definition run (ops : list op) : t := fold_left step ops init.

(** A volume within [0.0, 1.0] *)
Definition in_unit (v : float) : bool :=
  PrimFloat.leb 0 v && PrimFloat.leb v 1.

End AudioPlayer.

(** The reading "out-of-range levels are clamped", written out for
    comparison with [AudioPlayer.set_volume]. *)
Definition clamped_volume (level : float) : float :=
  if PrimFloat.ltb level 0 then 0
  else if PrimFloat.ltb 1 level then 1
  else level.

(** ** [src/ui/main_window.py]: the playback session controller *)

Module MainWindow.

(** [playing_track] is the row [track_list.set_playing_track] marked;
    [track_info] what [player_controls.set_track_info] last showed. *)
Record t : Type := mk {
  audio_player : AudioPlayer.t;
  current_playlist : option Playlist.t;
  current_track_index : Z;
  playing_track : Z;
  track_info : option (string * option string)
}.

Definition with_index (self : t) (i : Z) : t :=
  mk (audio_player self) (current_playlist self) i (playing_track self)
     (track_info self).

Definition _play_current_track (self : t) (fs : fsys) : t :=
  match current_playlist self with
  | None => self
  | Some playlist =>
      if current_track_index self <? 0 then self
      else
        match Playlist.get_track_path playlist (current_track_index self),
              Playlist.tracks playlist !! Z.to_nat (current_track_index self)
        with
        | Some track_path, Some track =>
            if Fs.exists_ fs track_path then
              mk (AudioPlayer._start_position_updater
                    (AudioPlayer.play (audio_player self) track_path))
                 (current_playlist self)
                 (current_track_index self)
                 (current_track_index self)
                 (Some (Track.title track, Track.artist track))
            else self
        | _, _ => self
        end
  end.

Definition _on_track_activated (self : t) (index : Z) (fs : fsys) : t :=
  match current_playlist self with
  | Some playlist =>
      if (0 <=? index) && (index <? Z.of_nat (length (Playlist.tracks playlist)))
      then _play_current_track (with_index self index) fs
      else self
  | None => self
  end.

Definition _on_track_reordered `{Runtime} (self : t) (old_index new_index : Z)
    (now : string) (fs : fsys) : t * fsys :=
  match current_playlist self with
  | None => (self, fs)
  | Some playlist =>
      let '(_, playlist, fs) :=
        Playlist.reorder_tracks playlist old_index new_index now fs in
      let cur := current_track_index self in
      let cur :=
        if cur =? old_index then new_index
        else if (old_index <? cur) && (cur <=? new_index) then cur - 1
        else if (new_index <=? cur) && (cur <? old_index) then cur + 1
        else cur in
      (mk (audio_player self) (Some playlist) cur (playing_track self)
          (track_info self),
       fs)
  end.

Definition _play_next (self : t) (fs : fsys) : t :=
  match current_playlist self with
  | None => self
  | Some playlist =>
      match Playlist.tracks playlist with
      | [] => self
      | _ :: _ =>
          let self :=
            if PlaylistSettings.shuffle_enabled (Playlist.settings playlist)
            then self
            else with_index self
                   ((current_track_index self + 1)
                      `mod` Z.of_nat (length (Playlist.tracks playlist))) in
          _play_current_track self fs
      end
  end.

Definition _play_previous (self : t) (fs : fsys) : t :=
  match current_playlist self with
  | None => self
  | Some playlist =>
      match Playlist.tracks playlist with
      | [] => self
      | _ :: _ =>
          if PrimFloat.ltb 3 (AudioPlayer.get_position (audio_player self))
          then mk (AudioPlayer.seek (audio_player self) 0)
                  (current_playlist self) (current_track_index self)
                  (playing_track self) (track_info self)
          else
            _play_current_track
              (with_index self
                 ((current_track_index self - 1)
                    `mod` Z.of_nat (length (Playlist.tracks playlist))))
              fs
      end
  end.

End MainWindow.

(** ** Concrete inputs for the examples *)

Module Demo.

(** Left-to-right summation, the [sum] of CPython up to 3.11. *)
Definition sum_left : Runtime :=
  {| py_sum := λ l, fold_left PrimFloat.add l 0%float |}.

(** A tag reader that finds no tags: the title is the file stem. *)
Definition no_tags : TagReader :=
  {| read_metadata :=
       λ _ p, Ok (mkMetadata (Path.stem p) None None 0 None None None) |}.

Definition digest : Sha256 :=
  {| hexdigest := λ _, "e3b0c442" |}.

Definition track (filename title : string) (duration : float) : Track.t :=
  Track.mk filename title None None duration None None None None None None
           0 0 None.

Definition dir : path := ["music"; "mix"].

Definition playlist : Playlist.t :=
  {| Playlist.path := dir;
     Playlist.name := "mix";
     Playlist.description := "";
     Playlist.created_date := "2024-01-01T00:00:00";
     Playlist.modified_date := "2024-01-01T00:00:00";
     Playlist.cover_image := None;
     Playlist.total_duration := 0;
     Playlist.track_count := 0;
     Playlist.source := PlaylistSource.mk "manual" None None;
     Playlist.settings := PlaylistSettings.default;
     Playlist.tracks :=
       [track "a.mp3" "A" 1.5; track "b.mp3" "B" 2; track "c.mp3" "C" 2.5];
     Playlist.tags := ["rock"] |}.

(** The playlist directory with its three audio files and no manifest. *)
Definition disk : fsys :=
  mkFsys (list_to_map [ (["music"], Dir);
                        (dir, Dir);
                        (dir /: "a.mp3", File (Bytes "aaa"));
                        (dir /: "b.mp3", File (Bytes "bbb"));
                        (dir /: "c.mp3", File (Bytes "ccc")) ])
         ∅.

(** The same directory after [a.mp3] was deleted behind the player's
    back. *)
Definition disk_without_a : fsys :=
  mkFsys (delete (dir /: "a.mp3") (nodes disk)) ∅.

(** The window with the playlist selected and the track at [index]
    current, the backend reporting [position] nanoseconds. *)
Definition window (index : Z) (position : option Z) : MainWindow.t :=
  {| MainWindow.audio_player :=
       AudioPlayer.mk (mkPlaybin None GstNull 1 [] position) None 0.8 false false;
     MainWindow.current_playlist := Some playlist;
     MainWindow.current_track_index := index;
     MainWindow.playing_track := -1;
     MainWindow.track_info := None |}.

(** *** A five-member playlist on either service

    The members are [m1] to [m5].  The fetcher downloads each member as
    [<id>.webm] and converts it to [<id>.mp3], except for the member
    [broken]: there it raises when [raises] is set, and otherwise returns
    normally but leaves no [.mp3] behind. *)

Definition members : list string := ["m1"; "m2"; "m3"; "m4"; "m5"].

Definition info_for (output_dir : path) (id : string) : ydl_info :=
  {| yi_title := Some id;
     yi_artist := None;
     yi_uploader := Some "channel";
     yi_album := None;
     yi_duration := Some 180%float;
     yi_filename := output_dir /: (id ++ ".webm") |}.

Definition fetch {A} (broken : string) (raises : bool) (result : ydl_info → A)
    (fs : fsys) (output_dir : path) (id : string) : ydl_run A :=
  if String.eqb id broken then
    if raises then mkRun (Exc DownloadError) [] fs
    else mkRun (Ok (result (info_for output_dir id))) [] fs
  else
    mkRun (Ok (result (info_for output_dir id)))
          [mkHook "downloading" 100 0 50; mkHook "finished" 100 0 100]
          (Fs.with_nodes fs
             (<[output_dir /: (id ++ ".mp3") := File (Bytes id)]> (nodes fs))).

Definition fetcher (broken : string) (raises : bool) : Fetcher :=
  {| spotify_playlist := λ _,
       Ok {| spl_name := "Five";
             spl_description := None;
             spl_images := [];
             spl_items :=
               map (λ id, Some (mkSpTrack id id ["band"] "album" 180000 1))
                   members |};
     ydl_flat := λ _,
       Ok {| yp_title := Some "Five";
             yp_description := None;
             yp_thumbnail := None;
             yp_entries := map (λ id, Some (mkEntry id (Some id))) members |};
     ydl_video := λ fs output_dir video_url,
       fetch broken raises (λ i, i) fs output_dir
             (PyStr.drop (String.length "https://www.youtube.com/watch?v=")
                         video_url);
     ydl_search := λ fs output_dir query,
       (* the query is "ytsearch:band <id> audio" *)
       fetch broken raises (λ i, [i]) fs output_dir
             (PyStr.take 2 (PyStr.drop (String.length "ytsearch:band ") query));
     http_get := λ _, Exc DownloadError |}.

Definition downloader : PlaylistDownloader.t :=
  PlaylistDownloader.mk DownloadProgress.init true [] true.

Definition empty_disk : fsys := mkFsys ∅ ∅.

Definition youtube_url : string :=
  "https://www.youtube.com/playlist?list=PLfive".

Definition spotify_url : string :=
  "https://open.spotify.com/playlist/37i9dQZF1DX".

(** The [filename] entries of the tracks of a manifest. *)
Definition manifest_files (fs : fsys) (playlist_dir : path) : list (option json) :=
  match nodes fs !! (playlist_dir /: "playlist.json") with
  | Some (File (Json (JObj data))) =>
      match Json.get "tracks" data with
      | Some (JArr tracks) =>
          map (λ tr, match tr with
                     | JObj d => Json.get "filename" d
                     | _ => None
                     end) tracks
      | _ => []
      end
  | _ => []
  end.

End Demo.

(** * Properties *)

(** ** Moving an element of a list *)

Section list_moves.
Context {A : Type}.
Implicit Types (l : list A) (x : A) (i j : nat).

Lemma insert_length l i x :
  length (PyList.insert i x l) = S (length l).
Proof.
  unfold PyList.insert. rewrite length_app. simpl.
  rewrite Nat.add_succ_r. f_equal.
  by rewrite <- length_app, take_drop.
Qed.

Lemma insert_lookup l i x j :
  (i ≤ length l)%nat →
  PyList.insert i x l !! j =
    if decide (j < i)%nat then l !! j
    else if decide (j = i) then Some x else l !! (j - 1)%nat.
Proof.
  intros Hi. unfold PyList.insert.
  destruct (decide (j < i)%nat) as [Hlt|Hge].
  - rewrite lookup_app_l by (rewrite length_take; lia).
    by rewrite lookup_take_lt.
  - rewrite lookup_app_r by (rewrite length_take; lia).
    rewrite length_take, Nat.min_l by lia.
    destruct (decide (j = i)) as [->|Hne].
    + by rewrite Nat.sub_diag.
    + destruct (j - i)%nat as [|k] eqn:Hk; [lia|]. simpl.
      rewrite lookup_drop. f_equal. lia.
Qed.

Lemma pop_insert l i x :
  (i ≤ length l)%nat → PyList.pop i (PyList.insert i x l) = l.
Proof.
  intros Hi. unfold PyList.pop, PyList.insert.
  assert (Hlen : length (take i l) = i) by (rewrite length_take; lia).
  rewrite <- Hlen at 1. rewrite delete_middle. apply take_drop.
Qed.

Lemma insert_pop l i x :
  l !! i = Some x → PyList.insert i x (PyList.pop i l) = l.
Proof.
  intros Hx. unfold PyList.pop, PyList.insert.
  rewrite <- (take_drop_middle l i x Hx) at 3.
  assert (Hi : (i < length l)%nat) by (by eapply lookup_lt_Some).
  f_equal; [|f_equal]; apply list_eq; intros k.
  - destruct (decide (k < i)%nat).
    + by rewrite !lookup_take_lt, list_lookup_delete_lt by lia.
    + by rewrite !lookup_take_ge by lia.
  - rewrite !lookup_drop, list_lookup_delete_ge by lia. done.
Qed.

Lemma moved_length l old new x :
  l !! old = Some x → length (PyList.moved l old new x) = length l.
Proof.
  intros Hx. unfold PyList.moved. rewrite insert_length.
  unfold PyList.pop. rewrite length_delete by eauto.
  apply lookup_lt_Some in Hx. lia.
Qed.

Lemma moved_lookup_new l old new x :
  l !! old = Some x → (new < length l)%nat →
  PyList.moved l old new x !! new = Some x.
Proof.
  intros Hx Hn. unfold PyList.moved. rewrite insert_lookup.
  - destruct (decide (new < new)%nat); [lia|]. by rewrite decide_True.
  - unfold PyList.pop. rewrite length_delete by eauto. lia.
Qed.

Lemma moved_pop l old new x :
  l !! old = Some x → (new < length l)%nat →
  PyList.pop new (PyList.moved l old new x) = PyList.pop old l.
Proof.
  intros Hx Hn. apply pop_insert.
  unfold PyList.pop. rewrite length_delete by eauto. lia.
Qed.

Lemma moved_back l old new x :
  l !! old = Some x → (new < length l)%nat →
  PyList.moved (PyList.moved l old new x) new old x = l.
Proof.
  intros Hx Hn. unfold PyList.moved at 1.
  rewrite moved_pop by done. by apply insert_pop.
Qed.

(** Where the element at index [j] is after the move. *)
Lemma moved_lookup l old new x j :
  l !! old = Some x → (new < length l)%nat → (j < length l)%nat →
  PyList.moved l old new x !!
    (if decide (j = old) then new
     else if decide (old < j ≤ new)%nat then (j - 1)%nat
     else if decide (new ≤ j < old)%nat then S j
     else j)
  = l !! j.
Proof.
  intros Hx Hn Hj.
  assert (Ho : (old < length l)%nat) by (by eapply lookup_lt_Some).
  unfold PyList.moved. rewrite insert_lookup
    by (unfold PyList.pop; rewrite length_delete by eauto; lia).
  unfold PyList.pop.
  repeat case_decide; subst; try lia; try done;
    rewrite ?list_lookup_delete_lt, ?list_lookup_delete_ge by lia;
    try done; f_equal; lia.
Qed.

End list_moves.

(** ** The playlist store: what [save] leaves in memory *)

Section store_memory.
Context `{Runtime}.

Lemma save_object p now fs :
  (Playlist.save p now fs).1.2 = Playlist.refreshed p now.
Proof.
  unfold Playlist.save.
  by destruct (FileUtils.save_json _ _ _).
Qed.

Lemma save_tracks p now fs :
  Playlist.tracks (Playlist.save p now fs).1.2 = Playlist.tracks p.
Proof. by rewrite save_object. Qed.

Lemma save_derived p now fs :
  let p' := (Playlist.save p now fs).1.2 in
  Playlist.track_count p' = Z.of_nat (length (Playlist.tracks p'))
  ∧ Playlist.total_duration p' =
      py_sum (map Track.duration (Playlist.tracks p')).
Proof. simpl. by rewrite save_object. Qed.

(** [reorder_tracks] with both indices in range moves the track. *)
Lemma reorder_tracks_moves p old_index new_index now fs :
  0 ≤ old_index < Z.of_nat (length (Playlist.tracks p)) →
  0 ≤ new_index < Z.of_nat (length (Playlist.tracks p)) →
  ∃ track,
    Playlist.tracks p !! Z.to_nat old_index = Some track
    ∧ Playlist.tracks (Playlist.reorder_tracks p old_index new_index now fs).1.2
      = PyList.moved (Playlist.tracks p) (Z.to_nat old_index) (Z.to_nat new_index) track.
Proof.
  intros Ho Hn. unfold Playlist.reorder_tracks.
  destruct (Z.ltb_spec old_index 0); [lia|].
  destruct (Z.leb_spec (Z.of_nat (length (Playlist.tracks p))) old_index); [lia|].
  destruct (Z.ltb_spec new_index 0); [lia|].
  destruct (Z.leb_spec (Z.of_nat (length (Playlist.tracks p))) new_index); [lia|].
  simpl.
  destruct (lookup_lt_is_Some_2 (Playlist.tracks p) (Z.to_nat old_index))
    as [track Htrack]; [lia|].
  exists track. split; [done|]. rewrite Htrack. by rewrite save_tracks.
Qed.

Lemma reorder_tracks_rejects p old_index new_index now fs :
  old_index < 0 ∨ Z.of_nat (length (Playlist.tracks p)) ≤ old_index
  ∨ new_index < 0 ∨ Z.of_nat (length (Playlist.tracks p)) ≤ new_index →
  Playlist.reorder_tracks p old_index new_index now fs = (false, p, fs).
Proof.
  intros Hout. unfold Playlist.reorder_tracks.
  destruct (Z.ltb_spec old_index 0); [done|].
  destruct (Z.leb_spec (Z.of_nat (length (Playlist.tracks p))) old_index); [done|].
  destruct (Z.ltb_spec new_index 0); [done|].
  destruct (Z.leb_spec (Z.of_nat (length (Playlist.tracks p))) new_index); [done|].
  lia.
Qed.

End store_memory.

(** ** C4 *)

(** C4: with both indices in range, [reorder_tracks(old, new)] followed by
    [reorder_tracks(new, old)] restores the track sequence; the first call
    is a move: the track that was at [old] is at [new], and the sequence of
    the other tracks (the list without the moved one) is the same as
    before. *)
Theorem reorder_tracks_round_trip `{Runtime} p old_index new_index now1 now2 fs :
  0 ≤ old_index < Z.of_nat (length (Playlist.tracks p)) →
  0 ≤ new_index < Z.of_nat (length (Playlist.tracks p)) →
  let '(_, p1, fs1) := Playlist.reorder_tracks p old_index new_index now1 fs in
  let '(_, p2, _) := Playlist.reorder_tracks p1 new_index old_index now2 fs1 in
  Playlist.tracks p2 = Playlist.tracks p
  ∧ Playlist.tracks p1 !! Z.to_nat new_index
    = Playlist.tracks p !! Z.to_nat old_index
  ∧ PyList.pop (Z.to_nat new_index) (Playlist.tracks p1)
    = PyList.pop (Z.to_nat old_index) (Playlist.tracks p).
Proof.
  intros Ho Hn.
  destruct (reorder_tracks_moves p old_index new_index now1 fs Ho Hn)
    as (track & Htrack & Hp1).
  destruct (Playlist.reorder_tracks p old_index new_index now1 fs)
    as [[ok1 p1] fs1] eqn:E1. simpl in Hp1.
  assert (Hlen : length (Playlist.tracks p1) = length (Playlist.tracks p))
    by (rewrite Hp1; by apply moved_length).
  assert (Hnew : Playlist.tracks p1 !! Z.to_nat new_index = Some track)
    by (rewrite Hp1; apply moved_lookup_new; [done|lia]).
  destruct (reorder_tracks_moves p1 new_index old_index now2 fs1)
    as (track' & Htrack' & Hp2); [lia..|].
  destruct (Playlist.reorder_tracks p1 new_index old_index now2 fs1)
    as [[ok2 p2] fs2] eqn:E2. simpl in Hp2.
  assert (track' = track) as -> by congruence.
  split; [|split].
  - rewrite Hp2, Hp1. apply moved_back; [done|lia].
  - congruence.
  - rewrite Hp1. apply moved_pop; [done|lia].
Qed.

(** The witness: in the demo playlist of three tracks, moving the first
    track to the end and back. *)
Lemma reorder_tracks_round_trip_witness :
  let r1 := Playlist.reorder_tracks (H:=Demo.sum_left) Demo.playlist 0 2 "t1"
              Demo.disk in
  let r2 := Playlist.reorder_tracks (H:=Demo.sum_left) r1.1.2 2 0 "t2" r1.2 in
  map Track.filename (Playlist.tracks r1.1.2) = ["b.mp3"; "c.mp3"; "a.mp3"]
  ∧ Playlist.tracks r2.1.2 = Playlist.tracks Demo.playlist.
Proof.
  split; [reflexivity|].
  pose proof (reorder_tracks_round_trip (H:=Demo.sum_left) Demo.playlist 0 2
                "t1" "t2" Demo.disk) as Hrt.
  destruct (Playlist.reorder_tracks Demo.playlist 0 2 "t1" Demo.disk)
    as [[ok1 p1] fs1].
  cbn [fst snd] in *.
  destruct (Playlist.reorder_tracks p1 2 0 "t2" fs1) as [[ok2 p2] fs2].
  cbn [fst snd]. apply Hrt; simpl; lia.
Defined.

(** ** C7 *)

(** C7: reordering while a track is selected keeps the selection on the
    same track.  For indices in range, the selection index becomes
    [new_index] when the selected track is the moved one, moves down by one
    when the track is moved from before the selection to its place or
    beyond, moves up by one when the track is moved from behind the
    selection to its place or before, and stays otherwise; in every case
    the track at the new selection index is the track that was selected. *)
Theorem reorder_pins_selection `{Runtime} w playlist old_index new_index now fs :
  MainWindow.current_playlist w = Some playlist →
  0 ≤ old_index < Z.of_nat (length (Playlist.tracks playlist)) →
  0 ≤ new_index < Z.of_nat (length (Playlist.tracks playlist)) →
  0 ≤ MainWindow.current_track_index w
    < Z.of_nat (length (Playlist.tracks playlist)) →
  let cur := MainWindow.current_track_index w in
  let w' := (MainWindow._on_track_reordered w old_index new_index now fs).1 in
  let cur' := MainWindow.current_track_index w' in
  ∃ playlist',
    MainWindow.current_playlist w' = Some playlist'
    ∧ (cur = old_index → cur' = new_index)
    ∧ (old_index < cur ≤ new_index → cur' = cur - 1)
    ∧ (new_index ≤ cur < old_index → cur' = cur + 1)
    ∧ (cur ≠ old_index → ¬ old_index < cur ≤ new_index →
       ¬ new_index ≤ cur < old_index → cur' = cur)
    ∧ Playlist.tracks playlist' !! Z.to_nat cur'
      = Playlist.tracks playlist !! Z.to_nat cur.
Proof.
  intros Hpl Ho Hn Hc. simpl.
  destruct (reorder_tracks_moves playlist old_index new_index now fs Ho Hn)
    as (track & Htrack & Hmoved).
  unfold MainWindow._on_track_reordered. rewrite Hpl.
  destruct (Playlist.reorder_tracks playlist old_index new_index now fs)
    as [[ok playlist'] fs'].
  simpl in *. exists playlist'. split; [done|].
  pose proof (moved_lookup (Playlist.tracks playlist) (Z.to_nat old_index)
                (Z.to_nat new_index) track
                (Z.to_nat (MainWindow.current_track_index w))
                Htrack ltac:(lia) ltac:(lia)) as Hlook.
  rewrite <- Hmoved in Hlook.
  destruct (Z.eqb_spec (MainWindow.current_track_index w) old_index) as [Heq|Hne].
  { rewrite decide_True in Hlook by (by rewrite Heq).
    repeat split; try done; lia. }
  rewrite decide_False in Hlook by lia.
  destruct (Z.ltb_spec old_index (MainWindow.current_track_index w));
    destruct (Z.leb_spec (MainWindow.current_track_index w) new_index);
    destruct (Z.leb_spec new_index (MainWindow.current_track_index w));
    destruct (Z.ltb_spec (MainWindow.current_track_index w) old_index);
    simpl; repeat case_decide; try lia;
    (repeat split; [lia..|]);
    rewrite <- Hlook; f_equal; lia.
Qed.


(** The witness: the second of the demo's three tracks is selected and the
    first track is moved to the end; the selection moves to index 0 and is
    still on [b.mp3]. *)
Lemma reorder_pins_selection_witness :
  let w' := (MainWindow._on_track_reordered (H:=Demo.sum_left)
               (Demo.window 1 None) 0 2 "t1" Demo.disk).1 in
  ∃ playlist',
    MainWindow.current_playlist w' = Some playlist'
    ∧ MainWindow.current_track_index w' = 0
    ∧ Track.filename <$> Playlist.tracks playlist' !! 0%nat = Some "b.mp3".
Proof.
  destruct (reorder_pins_selection (H:=Demo.sum_left) (Demo.window 1 None)
              Demo.playlist 0 2 "t1" Demo.disk eq_refl)
    as (playlist' & Hpl & _ & Hdown & _ & _ & Hsame); [simpl; lia..|].
  exists playlist'. split; [exact Hpl|].
  assert (Hidx : MainWindow.current_track_index
                   (MainWindow._on_track_reordered (H:=Demo.sum_left)
                      (Demo.window 1 None) 0 2 "t1" Demo.disk).1 = 0)
    by (rewrite Hdown; simpl; lia).
  split; [exact Hidx|].
  rewrite Hidx in Hsame. change (Z.to_nat 0) with 0%nat in Hsame.
  rewrite Hsame. reflexivity.
Defined.

(** ** C8 *)

(** C8: [remove_track] with an index below 0 or at or beyond the number of
    tracks answers [False] and changes neither the playlist object nor the
    file system; with an index in range, whenever it returns, the track at
    that index is gone from the sequence and the others keep their order
    (it can only raise when asked to delete a file whose path is a
    directory). *)
Theorem remove_track_checks_index `{Runtime} p index delete_file now fs :
  (index < 0 ∨ Z.of_nat (length (Playlist.tracks p)) ≤ index →
   Playlist.remove_track p index delete_file now fs = Ok (false, p, fs))
  ∧ (0 ≤ index < Z.of_nat (length (Playlist.tracks p)) →
     match Playlist.remove_track p index delete_file now fs with
     | Ok (_, p', _) =>
         Playlist.tracks p' = PyList.pop (Z.to_nat index) (Playlist.tracks p)
         ∧ length (Playlist.tracks p') = (length (Playlist.tracks p) - 1)%nat
     | Exc _ =>
         delete_file = true
         ∧ ∃ track, Playlist.tracks p !! Z.to_nat index = Some track
             ∧ Fs.is_dir fs (Playlist.path p /: Track.filename track) = true
     end).
Proof.
  unfold Playlist.remove_track. split.
  - intros Hout.
    destruct (Z.ltb_spec index 0); [done|].
    destruct (Z.leb_spec (Z.of_nat (length (Playlist.tracks p))) index); [done|].
    lia.
  - intros Hin.
    destruct (Z.ltb_spec index 0); [lia|].
    destruct (Z.leb_spec (Z.of_nat (length (Playlist.tracks p))) index); [lia|].
    simpl.
    destruct (lookup_lt_is_Some_2 (Playlist.tracks p) (Z.to_nat index))
      as [track Htrack]; [lia|].
    rewrite Htrack.
    assert (Hdone : ∀ fs',
      Playlist.tracks
        (Playlist.save
           (Playlist.with_tracks p (PyList.pop (Z.to_nat index) (Playlist.tracks p)))
           now fs').1.2
      = PyList.pop (Z.to_nat index) (Playlist.tracks p)).
    { intros fs'. by rewrite save_tracks. }
    assert (Hlen : length (PyList.pop (Z.to_nat index) (Playlist.tracks p))
                   = (length (Playlist.tracks p) - 1)%nat).
    { unfold PyList.pop. apply length_delete. eauto. }
    destruct delete_file; simpl.
    + unfold Fs.exists_, Fs.unlink, Fs.is_dir.
      destruct (nodes fs !! (Playlist.path p /: Track.filename track))
        as [[|c]|] eqn:Hnode; simpl.
      * split; [done|]. exists track. by rewrite Hnode.
      * specialize (Hdone (Fs.with_nodes fs
            (delete (Playlist.path p /: Track.filename track) (nodes fs)))).
        destruct (Playlist.save _ _ _) as [[ok p'] fs'']. simpl in Hdone.
        by rewrite Hdone.
      * specialize (Hdone fs).
        destruct (Playlist.save _ _ _) as [[ok p'] fs'']. simpl in Hdone.
        by rewrite Hdone.
    + specialize (Hdone fs).
      destruct (Playlist.save _ _ _) as [[ok p'] fs'']. simpl in Hdone.
      by rewrite Hdone.
Qed.

(** The witness: index 3 is out of range for the demo playlist's three
    tracks, index 1 is in range. *)
Lemma remove_track_checks_index_witness :
  Playlist.remove_track (H:=Demo.sum_left) Demo.playlist 3 true "t1" Demo.disk
  = Ok (false, Demo.playlist, Demo.disk)
  ∧ match Playlist.remove_track (H:=Demo.sum_left) Demo.playlist 1 true "t1"
            Demo.disk with
    | Ok (_, p', _) =>
        Playlist.tracks p' = PyList.pop 1 (Playlist.tracks Demo.playlist)
    | Exc _ => False
    end.
Proof.
  destruct (remove_track_checks_index (H:=Demo.sum_left) Demo.playlist 3 true
              "t1" Demo.disk) as [Hout _].
  destruct (remove_track_checks_index (H:=Demo.sum_left) Demo.playlist 1 true
              "t1" Demo.disk) as [_ Hin].
  split; [apply Hout; simpl; lia|].
  specialize (Hin ltac:(simpl; lia)).
  destruct (Playlist.remove_track Demo.playlist 1 true "t1" Demo.disk)
    as [[[ok p'] fs']|e] eqn:Hr.
  - apply Hin.
  - vm_compute in Hr. discriminate.
Defined.

(** ** Substrings *)

Lemma string_app_assoc (a b c : string) : (a ++ b) ++ c = a ++ b ++ c.
Proof.
  induction a as [|x a IH]; [reflexivity|].
  change (String x ((a ++ b) ++ c) = String x (a ++ b ++ c)). by f_equal.
Qed.

Lemma prefix_app sub post : String.prefix sub (sub ++ post) = true.
Proof.
  induction sub as [|c sub IH].
  - by destruct post.
  - change (String.prefix (String c sub) (String c (sub ++ post)) = true).
    simpl. destruct (ascii_dec c c); [done|congruence].
Qed.

Lemma prefix_split sub s :
  String.prefix sub s = true → ∃ post, s = sub ++ post.
Proof.
  revert s. induction sub as [|c sub IH]; intros s Hp.
  - by exists s.
  - destruct s as [|c' s]; simpl in Hp; [done|].
    destruct (ascii_dec c c') as [->|]; [|done].
    destruct (IH s Hp) as [post ->]. by exists post.
Qed.

Lemma contains_nil sub :
  PyStr.contains sub "" = String.prefix sub "".
Proof. by destruct sub. Qed.

Lemma contains_cons sub c s :
  PyStr.contains sub (String c s) =
    if String.prefix sub (String c s) then true else PyStr.contains sub s.
Proof. done. Qed.

Lemma contains_intro sub pre post :
  PyStr.contains sub (pre ++ sub ++ post) = true.
Proof.
  induction pre as [|c pre IH].
  - change ("" ++ sub ++ post) with (sub ++ post).
    destruct (sub ++ post) as [|c s] eqn:Hs.
    + rewrite contains_nil, <- Hs. apply prefix_app.
    + rewrite contains_cons, <- Hs. by rewrite prefix_app.
  - change (String c pre ++ sub ++ post) with (String c (pre ++ sub ++ post)).
    rewrite contains_cons, IH. by destruct (String.prefix _ _).
Qed.

Lemma contains_split sub s :
  PyStr.contains sub s = true → ∃ pre post, s = pre ++ sub ++ post.
Proof.
  induction s as [|c s IH]; intros Hc.
  - rewrite contains_nil in Hc.
    destruct (prefix_split _ _ Hc) as [post Hpost]. by exists "", post.
  - rewrite contains_cons in Hc. destruct (String.prefix sub (String c s)) eqn:Hp.
    + destruct (prefix_split _ _ Hp) as [post Hpost]. by exists "", post.
    + destruct (IH Hc) as (pre & post & ->). by exists (String c pre), post.
Qed.

(** A string that contains [a ++ b] contains [b]. *)
Lemma contains_tail a b s :
  PyStr.contains (a ++ b) s = true → PyStr.contains b s = true.
Proof.
  intros Hc. destruct (contains_split _ _ Hc) as (pre & post & ->).
  replace (pre ++ (a ++ b) ++ post) with ((pre ++ a) ++ b ++ post).
  - apply contains_intro.
  - by rewrite !string_app_assoc.
Qed.

(** ** C9 *)

(** C9: [identify_service] answers ['spotify'], ['youtube'] or [None] and
    never ['youtube_music']: a URL that contains [music.youtube.com]
    contains [youtube.com], which the second test has already taken. *)
Theorem identify_service_never_youtube_music url :
  (PyStr.contains "music.youtube.com" url = true →
   PyStr.contains "youtube.com" url = true)
  ∧ PlaylistDownloader.identify_service url ≠ Some "youtube_music"
  ∧ (PlaylistDownloader.identify_service url = Some "spotify"
     ∨ PlaylistDownloader.identify_service url = Some "youtube"
     ∨ PlaylistDownloader.identify_service url = None).
Proof.
  assert (Hsub : PyStr.contains "music.youtube.com" url = true →
                 PyStr.contains "youtube.com" url = true)
    by apply (contains_tail "music." "youtube.com").
  split; [done|].
  unfold PlaylistDownloader.identify_service.
  destruct (PyStr.contains "spotify.com" url); [split; [done|by left]|].
  destruct (PyStr.contains "youtube.com" url) eqn:Hy; simpl;
    [split; [done|by right; left]|].
  destruct (PyStr.contains "youtu.be" url); [split; [done|by right; left]|].
  destruct (PyStr.contains "music.youtube.com" url).
  - by specialize (Hsub eq_refl).
  - split; [done|by right; right].
Qed.


(** The witness: a YouTube Music URL is classified as ['youtube']. *)
Lemma identify_service_never_youtube_music_witness :
  PyStr.contains "youtube.com" "https://music.youtube.com/playlist?list=PL1" = true
  ∧ PlaylistDownloader.identify_service
      "https://music.youtube.com/playlist?list=PL1" = Some "youtube".
Proof.
  destruct (identify_service_never_youtube_music
              "https://music.youtube.com/playlist?list=PL1") as (Hsub & _ & _).
  split; [apply Hsub|]; reflexivity.
Defined.

(** ** The volume of the playback engine *)

Lemma set_volume_in_unit s level :
  AudioPlayer.in_unit (AudioPlayer._volume s) = true →
  AudioPlayer.in_unit (AudioPlayer._volume (AudioPlayer.set_volume s level)) = true.
Proof.
  intros Hs. unfold AudioPlayer.set_volume.
  destruct (PrimFloat.leb 0 level && PrimFloat.leb level 1) eqn:Hl; done.
Qed.

Lemma step_volume_in_unit s o :
  AudioPlayer.in_unit (AudioPlayer._volume s) = true →
  AudioPlayer.in_unit (AudioPlayer._volume (AudioPlayer.step s o)) = true.
Proof.
  intros Hs. destruct o as [message| | | | | |]; simpl; try done.
  - by destruct message.
  - by apply set_volume_in_unit.
  - unfold AudioPlayer.toggle_play_pause.
    destruct (AudioPlayer.is_playing s); [done|].
    by destruct (AudioPlayer._is_paused s), (AudioPlayer._current_track s).
Qed.

(** Every state the player reaches from [__init__] holds a volume within
    [0.0, 1.0]. *)
Lemma run_volume_in_unit ops :
  AudioPlayer.in_unit (AudioPlayer._volume (AudioPlayer.run ops)) = true.
Proof.
  unfold AudioPlayer.run.
  assert (Hgen : ∀ s, AudioPlayer.in_unit (AudioPlayer._volume s) = true →
            AudioPlayer.in_unit
              (AudioPlayer._volume (fold_left AudioPlayer.step ops s)) = true).
  { induction ops as [|o ops IH]; intros s Hs; [done|].
    simpl. apply IH. by apply step_volume_in_unit. }
  apply Hgen. reflexivity.
Qed.

(** ** C5 *)

(** C5, counterexample: a level above 1 is not clamped.  From the initial
    state, [set_volume(1.5)] leaves the volume at 0.8, where clamping would
    store 1.0. *)
Lemma set_volume_does_not_clamp :
  AudioPlayer.set_volume AudioPlayer.init 1.5 = AudioPlayer.init
  ∧ PrimFloat.eqb (clamped_volume 1.5) 1 = true
  ∧ AudioPlayer._volume (AudioPlayer.set_volume AudioPlayer.init 1.5)
    ≠ clamped_volume 1.5.
Proof.
  split; [reflexivity|]. split; [reflexivity|].
  intros Heq.
  apply (f_equal (λ v, PrimFloat.eqb v 1)) in Heq.
  vm_compute in Heq. discriminate.
Qed.

(** C5, as amended: in every state reached from [__init__], after
    [set_volume(level)] the stored volume lies within [0.0, 1.0]; a level
    within the range is stored and set on the backend at once; a level
    outside the range (or not a number) is ignored, the player is left as it
    was; and playing a track changes neither the stored volume nor the
    backend's. *)
Theorem set_volume_guarded ops level :
  let s := AudioPlayer.run ops in
  let s' := AudioPlayer.set_volume s level in
  AudioPlayer.in_unit (AudioPlayer._volume s') = true
  ∧ (AudioPlayer.in_unit level = true →
     AudioPlayer._volume s' = level ∧ volume_prop (AudioPlayer.pipeline s') = level)
  ∧ (AudioPlayer.in_unit level = false → s' = s)
  ∧ (∀ track_path,
       AudioPlayer._volume (AudioPlayer.play s' track_path) = AudioPlayer._volume s'
       ∧ volume_prop (AudioPlayer.pipeline (AudioPlayer.play s' track_path))
         = volume_prop (AudioPlayer.pipeline s')).
Proof.
  simpl. split; [|split; [|split]].
  - apply set_volume_in_unit, run_volume_in_unit.
  - unfold AudioPlayer.in_unit, AudioPlayer.set_volume. by intros ->.
  - unfold AudioPlayer.in_unit, AudioPlayer.set_volume. by intros ->.
  - done.
Qed.

(** The witness: after playing a track, a level of 0.25 is stored, and a
    level of 1.5 leaves the player as it was. *)
Lemma set_volume_guarded_witness :
  let s := AudioPlayer.run [AudioPlayer.Play ["music"; "mix"; "a.mp3"]] in
  AudioPlayer._volume (AudioPlayer.set_volume s 0.25) = 0.25%float
  ∧ AudioPlayer.set_volume s 1.5 = s.
Proof.
  destruct (set_volume_guarded [AudioPlayer.Play ["music"; "mix"; "a.mp3"]] 0.25)
    as (_ & Hin & _).
  destruct (set_volume_guarded [AudioPlayer.Play ["music"; "mix"; "a.mp3"]] 1.5)
    as (_ & _ & Hout & _).
  split; [apply Hin|apply Hout]; reflexivity.
Defined.

(** ** C6 *)

Lemma play_current_track_at w playlist fs i track :
  MainWindow.current_playlist w = Some playlist →
  0 ≤ i < Z.of_nat (length (Playlist.tracks playlist)) →
  Playlist.tracks playlist !! Z.to_nat i = Some track →
  MainWindow._play_current_track (MainWindow.with_index w i) fs =
    let track_path := Playlist.path playlist /: Track.filename track in
    if Fs.exists_ fs track_path
    then MainWindow.mk
           (AudioPlayer._start_position_updater
              (AudioPlayer.play (MainWindow.audio_player w) track_path))
           (Some playlist) i i (Some (Track.title track, Track.artist track))
    else MainWindow.with_index w i.
Proof.
  intros Hpl Hi Htrack.
  unfold MainWindow._play_current_track, Playlist.get_track_path. simpl.
  rewrite Hpl, Htrack.
  destruct (Z.ltb_spec i 0); [lia|].
  destruct (Z.leb_spec 0 i); [|lia].
  destruct (Z.ltb_spec i (Z.of_nat (length (Playlist.tracks playlist)))); [|lia].
  simpl. by destruct (Fs.exists_ fs _).
Qed.

(** C6, counterexample: with the second of three tracks current, the
    position at 1.0 s and the file of the first track missing from the
    disk, [previous] moves the index to 0 and plays nothing: the player has
    no current track and the backend was not started. *)
Lemma play_previous_missing_file_not_played :
  let w' := MainWindow._play_previous (Demo.window 1 (Some 1000000000))
                                      Demo.disk_without_a in
  MainWindow.current_track_index w' = 0
  ∧ AudioPlayer._current_track (MainWindow.audio_player w') = None
  ∧ state (AudioPlayer.pipeline (MainWindow.audio_player w')) = GstNull
  ∧ MainWindow.playing_track w' = -1.
Proof. vm_compute. done. Qed.

(** C6, as amended: [previous] on a selected, non-empty playlist.  With the
    position above 3.0 s it seeks to 0 and keeps the index.  Otherwise the
    index becomes [(index - 1) mod count], so 0 wraps to the last track and
    an index within the list moves back by one, and the track now current
    is played when its file exists; when the file is missing the index has
    moved all the same and the player is left as it was. *)
Theorem play_previous_policy w playlist fs :
  MainWindow.current_playlist w = Some playlist →
  Playlist.tracks playlist ≠ [] →
  let n := Z.of_nat (length (Playlist.tracks playlist)) in
  let cur := MainWindow.current_track_index w in
  let w' := MainWindow._play_previous w fs in
  (PrimFloat.ltb 3 (AudioPlayer.get_position (MainWindow.audio_player w)) = true →
   MainWindow.current_track_index w' = cur
   ∧ MainWindow.audio_player w' = AudioPlayer.seek (MainWindow.audio_player w) 0
   ∧ seeks (AudioPlayer.pipeline (MainWindow.audio_player w'))
     = (seeks (AudioPlayer.pipeline (MainWindow.audio_player w)) ++ [0])%list)
  ∧ (PrimFloat.ltb 3 (AudioPlayer.get_position (MainWindow.audio_player w)) = false →
     MainWindow.current_track_index w' = (cur - 1) `mod` n
     ∧ (cur = 0 → MainWindow.current_track_index w' = n - 1)
     ∧ (0 < cur < n → MainWindow.current_track_index w' = cur - 1)
     ∧ ∃ track,
         Playlist.tracks playlist !! Z.to_nat ((cur - 1) `mod` n) = Some track
         ∧ let track_path := Playlist.path playlist /: Track.filename track in
           if Fs.exists_ fs track_path
           then MainWindow.audio_player w'
                = AudioPlayer._start_position_updater
                    (AudioPlayer.play (MainWindow.audio_player w) track_path)
           else MainWindow.audio_player w' = MainWindow.audio_player w).
Proof.
  intros Hpl Hne. simpl.
  unfold MainWindow._play_previous. rewrite Hpl.
  destruct (Playlist.tracks playlist) as [|t0 ts] eqn:Hts; [done|].
  rewrite <- Hts.
  assert (Hn : 0 < Z.of_nat (length (Playlist.tracks playlist)))
    by (rewrite Hts; simpl; lia).
  split; intros Hpos; rewrite Hpos.
  - done.
  - pose proof (Z.mod_pos_bound (MainWindow.current_track_index w - 1) _ Hn) as Hb.
    destruct (lookup_lt_is_Some_2 (Playlist.tracks playlist)
                (Z.to_nat ((MainWindow.current_track_index w - 1)
                             `mod` Z.of_nat (length (Playlist.tracks playlist)))))
      as [track Htrack]; [lia|].
    rewrite (play_current_track_at w playlist fs _ track Hpl Hb Htrack). simpl.
    assert (Hidx : ∀ b x y, MainWindow.current_track_index
              (if b : bool then MainWindow.mk x (Some playlist)
                         ((MainWindow.current_track_index w - 1)
                            `mod` Z.of_nat (length (Playlist.tracks playlist)))
                         ((MainWindow.current_track_index w - 1)
                            `mod` Z.of_nat (length (Playlist.tracks playlist))) y
               else MainWindow.with_index w
                      ((MainWindow.current_track_index w - 1)
                         `mod` Z.of_nat (length (Playlist.tracks playlist))))
            = (MainWindow.current_track_index w - 1)
                `mod` Z.of_nat (length (Playlist.tracks playlist)))
      by (by intros []).
    rewrite Hidx. split; [done|]. split; [|split].
    + intros ->. simpl.
      rewrite <- (Z.mod_unique_pos (-1) _ (-1)
                    (Z.of_nat (length (Playlist.tracks playlist)) - 1)); lia.
    + intros Hc. apply Z.mod_small. lia.
    + exists track. split; [done|]. by destruct (Fs.exists_ fs _).
Qed.

(** Its hypotheses hold for the demo window, here with the position at
    5.0 s. *)
Lemma play_previous_policy_witness :
  MainWindow.current_track_index
    (MainWindow._play_previous (Demo.window 1 (Some 5000000000)) Demo.disk) = 1.
Proof.
  apply (play_previous_policy (Demo.window 1 (Some 5000000000)) Demo.playlist
           Demo.disk eq_refl); [done|reflexivity].
Defined.

(** ** The manifest codec *)

Lemma track_round_trip t : Track.from_dict (Track.to_dict t) = Ok t.
Proof.
  destruct t as [filename title artist album duration track_number year genre
                 downloaded_date source_id file_hash play_count skip_count
                 last_played].
  destruct artist, album, track_number, year, genre, downloaded_date,
    source_id, file_hash, last_played; reflexivity.
Qed.

Lemma source_round_trip s : PlaylistSource.from_dict (PlaylistSource.to_dict s) = Ok s.
Proof. destruct s as [type [url|] [last_sync|]]; reflexivity. Qed.

Lemma settings_round_trip s :
  PlaylistSettings.from_dict (PlaylistSettings.to_dict s) = Ok s.
Proof. by destruct s. Qed.

Lemma tags_round_trip (tags : list string) :
  Dec.each Dec.str_item (map JStr tags) = Ok tags.
Proof. induction tags as [|tag tags IH]; simpl; [done|]. by rewrite IH. Qed.

Lemma tracks_round_trip (tracks : list Track.t) :
  Dec.each (λ j, d ← Dec.obj j; Track.from_dict d)
           (map (λ tr, JObj (Track.to_dict tr)) tracks)
  = Ok tracks.
Proof.
  induction tracks as [|tr tracks IH]; simpl; [done|].
  rewrite IH. change (Dec.obj (JObj (Track.to_dict tr)) ≫= Track.from_dict)
    with (Track.from_dict (Track.to_dict tr)).
  by rewrite track_round_trip.
Qed.

(** ** Results *)

Lemma bind_ok {A B} (a : A) (k : A → res B) : (Ok a ≫= k) = k a.
Proof. done. Qed.

(** ** Paths and the file system *)

Lemma name_join p s : Path.name (p /: s) = s.
Proof. unfold Path.name, Path.join. apply last_last. Qed.

Lemma parent_join p s : Path.parent (p /: s) = p.
Proof. unfold Path.parent, Path.join. apply removelast_last. Qed.

Lemma join_inj p q s r : p /: s = q /: r → p = q ∧ s = r.
Proof. unfold Path.join. intros Heq. by apply app_inj_tail in Heq. Qed.

Lemma join_ne_self p s : p /: s ≠ p.
Proof.
  unfold Path.join. intros Heq.
  apply (f_equal length) in Heq. rewrite length_app in Heq. simpl in Heq. lia.
Qed.

(** The backup and the temporary file of a manifest. *)
Lemma manifest_with_suffix dir suf :
  Path.with_suffix (dir /: "playlist.json") suf = dir /: ("playlist" ++ suf).
Proof.
  unfold Path.with_suffix, Path.stem, Path.suffix.
  by rewrite name_join, parent_join.
Qed.

Lemma is_dir_exists fs p : Fs.is_dir fs p = true → Fs.exists_ fs p = true.
Proof. unfold Fs.is_dir, Fs.exists_. by destruct (nodes fs !! p). Qed.

Lemma write_inv fs p c fs' :
  Fs.write fs p c = Ok fs' →
  fs' = Fs.with_nodes fs (<[p := File c]> (nodes fs))
  ∧ (p ∉ denied fs)
  ∧ Fs.is_dir fs p = false
  ∧ Fs.is_dir fs (Path.parent p) = true
  ∧ Fs.name_too_long p = false.
Proof.
  unfold Fs.write. destruct (Fs.name_too_long p); [done|].
  case_bool_decide; [done|].
  destruct (Fs.is_dir fs p); [done|].
  destruct (Fs.is_dir fs (Path.parent p)); [|done].
  simpl. intros [= <-]. done.
Qed.

Lemma write_ok fs p c :
  Fs.name_too_long p = false →
  p ∉ (denied fs) → Fs.is_dir fs p = false → Fs.is_dir fs (Path.parent p) = true →
  Fs.write fs p c = Ok (Fs.with_nodes fs (<[p := File c]> (nodes fs))).
Proof.
  intros Hlen Hd Hp Hpar. unfold Fs.write. rewrite Hlen.
  rewrite bool_decide_eq_false_2 by done. by rewrite Hp, Hpar.
Qed.

(** A successful [save_json] of a manifest leaves exactly the document
    there, open to the process; the directory is untouched. *)
Lemma save_json_manifest fs dir data fs' :
  FileUtils.save_json fs (dir /: "playlist.json") data = (true, fs') →
  nodes fs' !! (dir /: "playlist.json") = Some (File (Json data))
  ∧ Fs.is_dir fs' dir = true
  ∧ (dir /: "playlist.json" ∉ denied fs').
Proof.
  unfold FileUtils.save_json. rewrite !manifest_with_suffix.
  set (manifest := dir /: "playlist.json").
  set (temp := dir /: ("playlist" ++ ".json.tmp")).
  assert (Hne : temp ≠ manifest).
  { intros Heq. apply join_inj in Heq as [_ Heq]. done. }
  assert (Htd : temp ≠ dir) by apply join_ne_self.
  assert (Hmd : manifest ≠ dir) by apply join_ne_self.
  assert (Hpt : Path.parent temp = dir) by apply parent_join.
  assert (Hpm : Path.parent manifest = dir) by apply parent_join.
  clearbody temp manifest.
  destruct (if Fs.exists_ fs manifest then _ else _) as [fs1|] eqn:Hbak; [|done].
  destruct (Fs.write fs1 temp (Json data)) as [fs2|] eqn:Hw; [|done].
  apply write_inv in Hw as (-> & Hw1 & Hw2 & Hw3 & _).
  unfold Fs.replace, Fs.read. simpl. rewrite lookup_insert_eq.
  rewrite bool_decide_eq_false_2 by done. simpl.
  destruct (Fs.write _ manifest (Json data)) as [fs3|] eqn:Hw'; [|done].
  apply write_inv in Hw' as (-> & Hw1' & Hw2' & Hw3' & _).
  rewrite Hpm in Hw3'.
  simpl. intros [= <-]. simpl. split; [|split].
  - rewrite lookup_delete_ne by done. by rewrite lookup_insert_eq.
  - unfold Fs.is_dir in *. simpl in *.
    rewrite lookup_delete_ne by done.
    by rewrite !lookup_insert_ne in * by done.
  - done.
Qed.

(** What [load_json] makes of a file that is no JSON document: [None]
    for text, [UnicodeDecodeError] for bytes that are not UTF-8, and the
    error of [open] for a directory. *)
Lemma load_json_of_other_files :
  let fs := mkFsys (list_to_map
                      [ (["d"], Dir);
                        (["d"; "text"], File (Bytes "not json"));
                        (["d"; "raw"], File (Bytes (String (ascii_of_nat 255) ""))) ])
                   ∅ in
  FileUtils.load_json fs ["d"; "text"] = Ok None
  ∧ FileUtils.load_json fs ["d"; "raw"] = Exc UnicodeDecodeError
  ∧ FileUtils.load_json fs ["d"; "none"] = Ok None
  ∧ FileUtils.load_json fs ["d"] = Exc IsADirectoryError.
Proof. vm_compute. done. Qed.

(** ** C1 *)

(** C1: after a successful [save], loading the manifest (into any playlist
    object of that directory, or through the constructor) gives back the
    saved object: name, description, creation date, cover image, tags,
    source, settings and tracks are those of the playlist that was saved,
    and the derived fields are the recomputed ones, [track_count] the
    length of the track list and [total_duration] the sum of the track
    durations. *)
Theorem save_then_load `{Runtime} p now fs p' fs' :
  Playlist.save p now fs = (true, p', fs') →
  (∀ q, Playlist.path q = Playlist.path p → Playlist.load q fs' = Ok (true, p'))
  ∧ (∀ now', Playlist.init (Playlist.path p) now' fs' = Ok p')
  ∧ Playlist.name p' = Playlist.name p
  ∧ Playlist.description p' = Playlist.description p
  ∧ Playlist.created_date p' = Playlist.created_date p
  ∧ Playlist.cover_image p' = Playlist.cover_image p
  ∧ Playlist.tags p' = Playlist.tags p
  ∧ Playlist.source p' = Playlist.source p
  ∧ Playlist.settings p' = Playlist.settings p
  ∧ Playlist.tracks p' = Playlist.tracks p
  ∧ Playlist.track_count p' = Z.of_nat (length (Playlist.tracks p'))
  ∧ Playlist.total_duration p' = py_sum (map Track.duration (Playlist.tracks p')).
Proof.
  unfold Playlist.save.
  destruct (FileUtils.save_json _ _ _) as [ok fs1] eqn:Hsave.
  intros [= -> <- <-].
  apply save_json_manifest in Hsave as (Hfile & Hdir & Hopen).
  assert (Hload : ∀ q, Playlist.path q = Playlist.path p →
            Playlist.load q fs1 = Ok (true, Playlist.refreshed p now)).
  { intros q Hq. unfold Playlist.load, FileUtils.load_json, Fs.read.
    unfold Playlist.json_path in *. simpl in Hfile, Hopen.
    rewrite Hq, Hfile. rewrite bool_decide_eq_false_2 by done. simpl.
    rewrite tags_round_trip. simpl.
    change (Dec.obj (JObj (PlaylistSource.to_dict (Playlist.source p)))
              ≫= PlaylistSource.from_dict)
      with (PlaylistSource.from_dict (PlaylistSource.to_dict (Playlist.source p))).
    rewrite source_round_trip. simpl.
    rewrite tracks_round_trip.
    unfold Playlist.refreshed.
    destruct (Playlist.settings p), (Playlist.cover_image p); reflexivity. }
  split; [exact Hload|]. split; [|by repeat split].
  intros now'. unfold Playlist.init.
  change (Fs.is_dir fs1 (Playlist.path p) = true) in Hdir.
  rewrite (is_dir_exists _ _ Hdir), Hload; reflexivity.
Qed.

(** The witness: saving the demo playlist into its directory succeeds, and
    the constructor then reads back the saved object. *)
Lemma save_then_load_witness :
  let r := Playlist.save (H:=Demo.sum_left) Demo.playlist "t1" Demo.disk in
  r.1.1 = true ∧ Playlist.init Demo.dir "t2" r.2 = Ok r.1.2.
Proof.
  split; [vm_compute; reflexivity|].
  refine (proj1 (proj2 (save_then_load (H:=Demo.sum_left) Demo.playlist "t1"
                          Demo.disk _ _ _)) "t2").
  vm_compute. reflexivity.
Defined.

(** ** C10 *)

Lemma parent_prefix (p : path) : Path.parent p `prefix_of` p.
Proof.
  unfold Path.parent.
  destruct (decide (p = [])) as [->|Hne]; [done|].
  exists [List.last p ""]. by apply app_removelast_last.
Qed.

Lemma from_file_inside `{TagReader} `{Sha256} fs now audio_file dir :
  Path.parent audio_file = dir →
  Track.from_file fs now audio_file dir
  = (metadata ← read_metadata fs audio_file;
     file_hash ← FileUtils.get_file_hash fs audio_file;
     Ok {| Track.filename := Path.name audio_file;
           Track.title := md_title metadata;
           Track.artist := md_artist metadata;
           Track.album := md_album metadata;
           Track.duration := md_duration metadata;
           Track.track_number := md_track_number metadata;
           Track.year := md_year metadata;
           Track.genre := md_genre metadata;
           Track.downloaded_date := Some now;
           Track.source_id := None;
           Track.file_hash := Some file_hash;
           Track.play_count := 0;
           Track.skip_count := 0;
           Track.last_played := None |}).
Proof.
  intros <-. unfold Track.from_file, Path.relative_to.
  rewrite bool_decide_eq_true_2 by apply parent_prefix.
  assert (Hrel : String.concat "/" (drop (length (Path.parent audio_file))
                                         audio_file)
                 = Path.name audio_file).
  { unfold Path.parent, Path.name.
    destruct (decide (audio_file = [])) as [->|Hne]; [done|].
    rewrite (app_removelast_last "" Hne) at 2.
    rewrite drop_app_length. done. }
  destruct (read_metadata fs audio_file) as [metadata|e]; [|done].
  rewrite !bind_ok. by rewrite Hrel.
Qed.

(** The hash of a file: that of its content for a regular file the
    process may open; a directory and a file it may not open raise. *)
Lemma get_file_hash_cases `{Sha256} fs p :
  Fs.exists_ fs p = true →
  (Fs.is_file fs p = true ∧ (p ∉ denied fs)
   ∧ ∃ c, nodes fs !! p = Some (File c)
          ∧ FileUtils.get_file_hash fs p = Ok (hexdigest c))
  ∨ (Fs.is_dir fs p = true
     ∧ FileUtils.get_file_hash fs p = Exc IsADirectoryError)
  ∨ (Fs.is_file fs p = true ∧ (p ∈ denied fs)
     ∧ FileUtils.get_file_hash fs p = Exc PermissionError).
Proof.
  unfold Fs.exists_, Fs.is_file, Fs.is_dir, FileUtils.get_file_hash, Fs.read.
  destruct (nodes fs !! p) as [[|c]|]; [|case_bool_decide|done]; intros _.
  - right. by left.
  - right. by right.
  - left. split; [done|]. split; [done|]. by exists c.
Qed.

(** C10: the check for a file of the same name guards the copy only.  For
    a source path that exists: when its parent is the playlist directory
    and it is a regular file that the process may open and whose tags can
    be read, [add_track] makes a track for it and appends it, whatever
    tracks the playlist already has (one of the same file name included);
    a directory there, or a file that may not be opened, makes the hashing
    of the file raise, and [add_track] with it (as it raises what reading
    the tags raised before); when the parent is another directory and the
    playlist directory already has a file of that name, [add_track] answers
    [False] and changes nothing; and it answers [False] with the track list
    unchanged in that case only. *)
Theorem add_track_duplicate_check `{Runtime} `{TagReader} `{Sha256}
    p audio_file now fs :
  Fs.exists_ fs audio_file = true →
  (Path.parent audio_file = Playlist.path p →
   Fs.is_file fs audio_file = true →
   (audio_file ∉ denied fs) →
   ∀ metadata, read_metadata fs audio_file = Ok metadata →
   ∃ track ok p' fs',
     Track.from_file fs now audio_file (Playlist.path p) = Ok track
     ∧ Track.filename track = Path.name audio_file
     ∧ Playlist.add_track p audio_file now fs = Ok (ok, p', fs')
     ∧ Playlist.tracks p' = (Playlist.tracks p ++ [track])%list)
  ∧ (Path.parent audio_file = Playlist.path p →
     Fs.is_dir fs audio_file = true →
     Playlist.add_track p audio_file now fs
     = Exc (match read_metadata fs audio_file with
            | Ok _ => IsADirectoryError
            | Exc e => e
            end))
  ∧ (Path.parent audio_file = Playlist.path p →
     Fs.is_file fs audio_file = true →
     (audio_file ∈ denied fs) →
     Playlist.add_track p audio_file now fs
     = Exc (match read_metadata fs audio_file with
            | Ok _ => PermissionError
            | Exc e => e
            end))
  ∧ (Path.parent audio_file ≠ Playlist.path p →
     Fs.exists_ fs (Playlist.path p /: Path.name audio_file) = true →
     Playlist.add_track p audio_file now fs = Ok (false, p, fs))
  ∧ (∀ p' fs',
       Playlist.add_track p audio_file now fs = Ok (false, p', fs') →
       Playlist.tracks p' = Playlist.tracks p →
       Path.parent audio_file ≠ Playlist.path p
       ∧ Fs.exists_ fs (Playlist.path p /: Path.name audio_file) = true).
Proof.
  intros Hex. unfold Playlist.add_track. rewrite Hex. simpl.
  assert (Happ : ∀ track now' fs1 ok p' fs',
            Playlist.save (Playlist.with_tracks p (Playlist.tracks p ++ [track]))
                          now' fs1 = (ok, p', fs') →
            Playlist.tracks p' = (Playlist.tracks p ++ [track])%list).
  { intros track now' fs1 ok p' fs' Hs.
    pose proof (save_tracks (Playlist.with_tracks p (Playlist.tracks p ++ [track]))
                            now' fs1) as Ht.
    by rewrite Hs in Ht. }
  assert (Hinside : Path.parent audio_file = Playlist.path p →
            (if bool_decide (Path.parent audio_file ≠ Playlist.path p)
             then if Fs.exists_ fs (Playlist.path p /: Path.name audio_file)
                  then Ok None
                  else fs0 ← Fs.copy2 fs audio_file
                               (Playlist.path p /: Path.name audio_file);
                       Ok (Some (Playlist.path p /: Path.name audio_file, fs0))
             else Ok (Some (audio_file, fs)))
            = Ok (Some (audio_file, fs))).
  { intros Hpar. by rewrite bool_decide_eq_false_2 by (by intros ?). }
  pose proof (get_file_hash_cases fs audio_file Hex) as Hhash.
  split; [|split; [|split; [|split]]].
  - intros Hpar Hfile Hopen metadata Hmd.
    rewrite (Hinside Hpar), bind_ok. cbv beta iota.
    rewrite (from_file_inside fs now audio_file _ Hpar), Hmd, bind_ok.
    destruct Hhash as [(_ & _ & c & _ & ->)|[[Hdir _]|(_ & Hden & _)]]; [| |done].
    + rewrite !bind_ok.
      destruct (Playlist.save _ now fs) as [[ok p'] fs'] eqn:Hs.
      eexists _, ok, p', fs'. split; [done|]. split; [done|].
      split; [done|]. by eapply Happ.
    + unfold Fs.is_file, Fs.is_dir in *.
      by destruct (nodes fs !! audio_file) as [[|?]|].
  - intros Hpar Hdir. rewrite (Hinside Hpar), bind_ok. cbv beta iota.
    rewrite (from_file_inside fs now audio_file _ Hpar).
    destruct (read_metadata fs audio_file) as [metadata|e]; [|done].
    rewrite bind_ok.
    destruct Hhash as [(Hfile & _)|[[_ ->]|(Hfile & _)]]; [|done|];
      unfold Fs.is_file, Fs.is_dir in *;
      by destruct (nodes fs !! audio_file) as [[|?]|].
  - intros Hpar Hfile Hden. rewrite (Hinside Hpar), bind_ok. cbv beta iota.
    rewrite (from_file_inside fs now audio_file _ Hpar).
    destruct (read_metadata fs audio_file) as [metadata|e]; [|done].
    rewrite bind_ok.
    destruct Hhash as [(_ & Hopen & _)|[[Hdir _]|(_ & _ & ->)]]; [done| |done].
    unfold Fs.is_file, Fs.is_dir in *.
    by destruct (nodes fs !! audio_file) as [[|?]|].
  - intros Hpar Hdest. rewrite bool_decide_eq_true_2 by done.
    by rewrite Hdest.
  - intros p' fs' Hadd Hsame.
    assert (Hgrow : ∀ track,
              Playlist.tracks p' ≠ (Playlist.tracks p ++ [track])%list).
    { intros track Heq. rewrite Hsame in Heq.
      apply (f_equal length) in Heq. rewrite length_app in Heq.
      simpl in Heq. lia. }
    case_bool_decide as Hpar.
    + split; [done|].
      destruct (Fs.exists_ fs (Playlist.path p /: Path.name audio_file));
        [done|].
      destruct (Fs.copy2 fs audio_file _) as [fs1|]; simpl in Hadd; [|done].
      destruct (Track.from_file fs1 now _ _) as [track|]; simpl in Hadd; [|done].
      destruct (Playlist.save _ now fs1) as [[ok p''] fs''] eqn:Hs.
      injection Hadd as -> -> ->. by apply Happ, Hgrow in Hs.
    + simpl in Hadd.
      destruct (Track.from_file fs now _ _) as [track|]; simpl in Hadd; [|done].
      destruct (Playlist.save _ now fs) as [[ok p''] fs''] eqn:Hs.
      injection Hadd as -> -> ->. by apply Happ, Hgrow in Hs.
Qed.

(** The witness: [a.mp3] is a regular file of the demo playlist's
    directory and is already a track of the playlist; adding it again
    gives a fourth track with the file name of the first. *)
Lemma add_track_duplicate_check_witness :
  Fs.exists_ Demo.disk (Demo.dir /: "a.mp3") = true
  ∧ Fs.is_file Demo.disk (Demo.dir /: "a.mp3") = true
  ∧ (Demo.dir /: "a.mp3" ∉ denied Demo.disk)
  ∧ ∃ ok p' fs',
      Playlist.add_track (H:=Demo.sum_left) (H0:=Demo.no_tags) (H1:=Demo.digest)
        Demo.playlist (Demo.dir /: "a.mp3") "t1" Demo.disk = Ok (ok, p', fs')
      ∧ map Track.filename (Playlist.tracks p')
        = ["a.mp3"; "b.mp3"; "c.mp3"; "a.mp3"].
Proof.
  assert (Hopen : Demo.dir /: "a.mp3" ∉ denied Demo.disk)
    by apply not_elem_of_empty.
  split; [reflexivity|]. split; [reflexivity|]. split; [exact Hopen|].
  destruct (proj1 (add_track_duplicate_check (H:=Demo.sum_left)
                     (H0:=Demo.no_tags) (H1:=Demo.digest)
                     Demo.playlist (Demo.dir /: "a.mp3") "t1" Demo.disk eq_refl)
                  eq_refl eq_refl Hopen _ eq_refl)
    as (track & ok & p' & fs' & _ & Hname & Hadd & Htracks).
  exists ok, p', fs'. split; [exact Hadd|].
  rewrite Htracks, map_app. simpl. by rewrite Hname.
Defined.

(** A directory named like an audio file passes [exists()] and is not
    added: hashing it raises. *)
Lemma add_track_directory_raises :
  let fs := mkFsys (<[Demo.dir /: "sub.mp3" := Dir]> (nodes Demo.disk)) ∅ in
  Playlist.add_track (H:=Demo.sum_left) (H0:=Demo.no_tags) (H1:=Demo.digest)
    Demo.playlist (Demo.dir /: "sub.mp3") "t1" fs
  = Exc IsADirectoryError.
Proof. vm_compute. reflexivity. Qed.

(** ** The download batch *)

Lemma fold_left_step {A B} (f : A → B → A) (x : B) (l : list B) (a : A) :
  fold_left f (x :: l) a = fold_left f l (f a x).
Proof. done. Qed.

Section batch.
Context `{Fetcher}.


Lemma publish_progress self :
  PlaylistDownloader.progress (PlaylistDownloader.publish self)
  = PlaylistDownloader.progress self.
Proof. unfold PlaylistDownloader.publish. by destruct (PlaylistDownloader.has_callback self). Qed.

Lemma hook_counters self d :
  PlaylistDownloader.counters (PlaylistDownloader._ydl_progress_hook self d) = PlaylistDownloader.counters self.
Proof.
  unfold PlaylistDownloader.counters, PlaylistDownloader._ydl_progress_hook.
  destruct (String.eqb (hk_status d) "downloading").
  - destruct (0 <? _); [|done]. by rewrite publish_progress.
  - destruct (String.eqb (hk_status d) "finished"); [|done].
    by rewrite publish_progress.
Qed.

Lemma hooks_counters ds self :
  PlaylistDownloader.counters (PlaylistDownloader.run_hooks_on self ds) = PlaylistDownloader.counters self.
Proof.
  unfold PlaylistDownloader.run_hooks_on.
  revert self. induction ds as [|d ds IH]; intros self; [done|].
  simpl. by rewrite IH, hook_counters.
Qed.

Lemma download_from_youtube_counters self query dir fs :
  PlaylistDownloader.counters (PlaylistDownloader._download_from_youtube self query dir fs).1.2
  = PlaylistDownloader.counters self.
Proof.
  unfold PlaylistDownloader._download_from_youtube.
  destruct (run_result _) as [[|entry entries]|]; simpl;
    try destruct (Fs.exists_ _ _); simpl; apply hooks_counters.
Qed.

(** One Spotify member: either one more track and one more completed, or
    one more error; never both, never neither. *)
Lemma spotify_member_accounting dir now self acc fs track completed errors total :
  PlaylistDownloader.counters self = (completed, errors, total) →
  let '(self', acc', _) :=
    PlaylistDownloader.spotify_member dir now (self, acc, fs) (Some track) in
  (∃ entry, acc' = (acc ++ [entry])%list
            ∧ PlaylistDownloader.counters self' = (completed + 1, errors, total))
  ∨ (∃ msg, acc' = acc
            ∧ PlaylistDownloader.counters self'
              = (completed, (errors ++ [msg])%list, total)).
Proof.
  intros Hself. unfold PlaylistDownloader.spotify_member.
  set (self1 := PlaylistDownloader.publish _).
  pose proof (download_from_youtube_counters self1
                (PyStr.join ", " (sp_artists track) ++ " " ++ sp_name track ++ " audio")
                dir fs) as Hc.
  destruct (PlaylistDownloader._download_from_youtube self1 _ dir fs)
    as [[file self2] fs2]. simpl in Hc.
  assert (Hc1 : PlaylistDownloader.counters self1 = (completed, errors, total)).
  { rewrite <- Hself. unfold PlaylistDownloader.counters, self1.
    by rewrite publish_progress. }
  rewrite Hc1 in Hc. unfold PlaylistDownloader.counters in *.
  injection Hc as Hcompleted Herrors Htotal.
  destruct file as [file|]; [left|right]; eexists; (split; [done|]);
    rewrite publish_progress; simpl; by rewrite Hcompleted, Herrors, Htotal.
Qed.

(** The whole Spotify loop: every member with a track ends up as exactly
    one of a manifest entry (counted in [completed_tracks]) and an error
    message; earlier entries and messages are kept, in order. *)
Lemma spotify_batch_accounting dir now items self acc fs completed errors total :
  PlaylistDownloader.counters self = (completed, errors, total) →
  let '(self', acc', _) :=
    fold_left (PlaylistDownloader.spotify_member dir now) items (self, acc, fs) in
  ∃ new errs,
    acc' = (acc ++ new)%list
    ∧ PlaylistDownloader.counters self'
      = (completed + Z.of_nat (length new), (errors ++ errs)%list, total)
    ∧ (length new + length errs = length (omap id items))%nat.
Proof.
  revert self acc fs completed errors.
  induction items as [|item items IH]; intros self acc fs completed errors Hself.
  - simpl. exists [], []. rewrite !app_nil_r, Z.add_0_r. done.
  - rewrite fold_left_step. destruct item as [track|].
    + pose proof (spotify_member_accounting dir now self acc fs track _ _ _ Hself)
        as Hstep.
      destruct (PlaylistDownloader.spotify_member dir now (self, acc, fs) (Some track))
        as [[self1 acc1] fs1].
      destruct Hstep as [(entry & -> & Hc)|(msg & -> & Hc)].
      all: match goal with
           | |- context [fold_left _ _ (?s1, ?a, ?f1)] =>
               specialize (IH s1 a f1 _ _ Hc)
           end.
      all: destruct (fold_left _ items _) as [[self' acc'] fs'].
      all: destruct IH as (new & errs & -> & Hc' & Hlen).
      all: change (omap id (Some track :: items)) with (track :: omap id items).
      * exists (entry :: new), errs. rewrite <- app_assoc.
        split; [done|]. split; [|simpl length; lia].
        rewrite Hc'. f_equal. f_equal. simpl length. lia.
      * exists new, (msg :: errs).
        split; [done|]. split; [|simpl length; lia].
        rewrite Hc'. by rewrite <- app_assoc.
    + change (PlaylistDownloader.spotify_member dir now (self, acc, fs) None)
        with (self, acc, fs).
      by apply IH.
Qed.

End batch.

(** On Spotify, five members of which the third cannot be fetched (the
    fetcher raising, or returning without a file): four completed, one
    error, and the manifest lists the other four in their order. *)
Lemma spotify_third_of_five_fails raises :
  let '(dir, self, fs) :=
    PlaylistDownloader.download_playlist (H:=Demo.fetcher "m3" raises)
      Demo.downloader ["home"] Demo.spotify_url None "t0" Demo.empty_disk in
  ∃ d, dir = Some d
    ∧ DownloadProgress.completed_tracks (PlaylistDownloader.progress self) = 4
    ∧ DownloadProgress.errors (PlaylistDownloader.progress self)
      = ["Failed to download: m3"]
    ∧ Demo.manifest_files fs d
      = map (λ f, Some (JStr f)) ["m1.mp3"; "m2.mp3"; "m4.mp3"; "m5.mp3"].
Proof. destruct raises; vm_compute; eexists; repeat split. Qed.

(** On YouTube the same holds when the fetcher raises for the third
    member. *)
Lemma youtube_third_of_five_raises :
  let '(dir, self, fs) :=
    PlaylistDownloader.download_playlist (H:=Demo.fetcher "m3" true)
      Demo.downloader ["home"] Demo.youtube_url None "t0" Demo.empty_disk in
  ∃ d, dir = Some d
    ∧ DownloadProgress.completed_tracks (PlaylistDownloader.progress self) = 4
    ∧ DownloadProgress.errors (PlaylistDownloader.progress self) = ["Failed: m3"]
    ∧ Demo.manifest_files fs d
      = map (λ f, Some (JStr f)) ["m1.mp3"; "m2.mp3"; "m4.mp3"; "m5.mp3"].
Proof. vm_compute; eexists; repeat split. Qed.

(** ** C3 *)

(** C3, the failing input: a YouTube playlist of five members where the
    download of the third returns without raising and leaves no [.mp3].
    Four tracks are completed and persisted in their order, the batch goes
    on after the failure, but nothing is added to [errors]: its length is 0
    where the specification asks for 1. *)
Theorem youtube_missing_file_not_reported :
  let '(dir, self, fs) :=
    PlaylistDownloader.download_playlist (H:=Demo.fetcher "m3" false)
      Demo.downloader ["home"] Demo.youtube_url None "t0" Demo.empty_disk in
  ∃ d, dir = Some d
    ∧ DownloadProgress.total_tracks (PlaylistDownloader.progress self) = 5
    ∧ DownloadProgress.completed_tracks (PlaylistDownloader.progress self) = 4
    ∧ DownloadProgress.errors (PlaylistDownloader.progress self) = []
    ∧ Demo.manifest_files fs d
      = map (λ f, Some (JStr f)) ["m1.mp3"; "m2.mp3"; "m4.mp3"; "m5.mp3"].
Proof. vm_compute; eexists; repeat split. Qed.

(** ** Allocating a playlist directory *)

Lemma string_length_app (a b : string) :
  String.length (a ++ b) = (String.length a + String.length b)%nat.
Proof.
  induction a as [|c a IH]; [done|].
  change (S (String.length (a ++ b)) = S (String.length a + String.length b)).
  by rewrite IH.
Qed.

Lemma numbered_inj base san k1 k2 :
  FileUtils.numbered base san k1 = FileUtils.numbered base san k2 → k1 = k2.
Proof.
  unfold FileUtils.numbered, PyStr.of_nat. intros Heq.
  apply join_inj in Heq as [_ Heq].
  apply String.app_inj in Heq. apply (String.app_inj "_") in Heq.
  by apply pretty_nat_inj in Heq.
Qed.

Lemma numbered_ne_plain base san k :
  FileUtils.numbered base san k ≠ base /: san.
Proof.
  unfold FileUtils.numbered. intros Heq.
  apply join_inj in Heq as [_ Heq].
  apply (f_equal String.length) in Heq.
  rewrite !string_length_app in Heq. simpl in Heq. lia.
Qed.

(** What the loop returns does not exist; it is the candidate it started
    from, or that one exists and the result is a later numbered one. *)
Lemma first_free_found fuel fs base san cur c p :
  FileUtils.first_free fuel fs base san cur c = Some p →
  Fs.exists_ fs p = false
  ∧ (p = cur
     ∨ Fs.exists_ fs cur = true
       ∧ ∃ k, (c ≤ k)%nat ∧ (S k < c + fuel)%nat
              ∧ p = FileUtils.numbered base san k).
Proof.
  revert cur c. induction fuel as [|fuel IH]; intros cur c; [done|].
  simpl. destruct (Fs.exists_ fs cur) eqn:Hcur.
  - intros Hp. assert (Hfuel : (1 ≤ fuel)%nat) by (destruct fuel; [done|lia]).
    apply IH in Hp as [Hfree [->|[_ (k & Hk & Hk' & ->)]]].
    + split; [done|]. right. split; [done|]. exists c. split; [lia|]. split; [lia|done].
    + split; [done|]. right. split; [done|]. exists k. split; [lia|]. split; [lia|done].
  - intros [= <-]. split; [done|by left].
Qed.

(** When the fuel runs out, every candidate tried exists. *)
Lemma first_free_none fuel fs base san cur c :
  FileUtils.first_free (S fuel) fs base san cur c = None →
  Fs.exists_ fs cur = true
  ∧ ∀ k, (c ≤ k < c + fuel)%nat →
         Fs.exists_ fs (FileUtils.numbered base san k) = true.
Proof.
  revert cur c. induction fuel as [|fuel IH]; intros cur c.
  - simpl. destruct (Fs.exists_ fs cur); [|done].
    intros _. split; [done|]. intros k Hk. lia.
  - change (FileUtils.first_free (S (S fuel)) fs base san cur c)
      with (if Fs.exists_ fs cur
            then FileUtils.first_free (S fuel) fs base san
                   (FileUtils.numbered base san c) (S c)
            else Some cur).
    destruct (Fs.exists_ fs cur); [|done].
    intros Hnone. apply IH in Hnone as [Hc Hrest].
    split; [done|]. intros k Hk.
    destruct (decide (k = c)) as [->|Hne]; [done|]. apply Hrest. lia.
Qed.

(** The loop of [create_playlist_folder] ends within the fuel it is
    given: the candidates are pairwise different, and the file system has
    fewer nodes than candidates were tried. *)
Lemma first_free_total fs base san :
  ∃ p, FileUtils.first_free (S (size (nodes fs))) fs base san (base /: san) 1
       = Some p.
Proof.
  destruct (FileUtils.first_free _ fs base san (base /: san) 1) as [p|] eqn:Hff;
    [by exists p|].
  exfalso. apply first_free_none in Hff as [Hplain Hnum].
  set (n := size (nodes fs)) in *.
  set (l := (base /: san) :: (FileUtils.numbered base san <$> seq 1 n)).
  assert (Hin : ∀ q, q ∈ l → q ∈ dom (nodes fs)).
  { intros q Hq. apply elem_of_dom.
    assert (Hex : Fs.exists_ fs q = true).
    { apply elem_of_cons in Hq as [->|Hq]; [done|].
      apply list_elem_of_fmap in Hq as (k & -> & Hk).
      apply elem_of_seq in Hk. apply Hnum. lia. }
    unfold Fs.exists_ in Hex. by destruct (nodes fs !! q). }
  assert (Hnodup : NoDup l).
  { apply NoDup_cons. split.
    - intros Hq. apply list_elem_of_fmap in Hq as (k & Hk & _).
      by apply eq_sym, numbered_ne_plain in Hk.
    - apply NoDup_fmap_2; [|apply NoDup_seq].
      intros k1 k2. apply numbered_inj. }
  assert (Hsize : (length l ≤ n)%nat).
  { rewrite <- (size_list_to_set (C:=gset path) l Hnodup).
    unfold n. rewrite <- (size_dom (D:=gset path) (nodes fs)).
    apply subseteq_size. intros q Hq. apply Hin. by apply elem_of_list_to_set in Hq. }
  unfold l in Hsize. simpl in Hsize. rewrite length_fmap, length_seq in Hsize. lia.
Qed.

(** ** Making directories on a sound disk *)

Lemma ancestors_and_self_spec (p q : path) :
  q ∈ Fs.ancestors_and_self p ↔ q ≠ [] ∧ q `prefix_of` p.
Proof.
  unfold Fs.ancestors_and_self. split.
  - intros Hq. apply (list_elem_of_fmap (λ n, take n p)) in Hq as (n & -> & Hn).
    apply elem_of_seq in Hn. split; [|apply prefix_take].
    intros Hnil. apply (f_equal length) in Hnil.
    rewrite length_take in Hnil. simpl in Hnil. lia.
  - intros [Hne [k ->]].
    apply (list_elem_of_fmap (λ n, take n (q ++ k))).
    exists (length q). split; [by rewrite take_app_length|].
    apply elem_of_seq. rewrite length_app.
    destruct q; [done|]. simpl. lia.
Qed.

Lemma mkdir_fold_lookup (l : list path) (m : gmap path node) (q : path) :
  foldr (λ q m, match m !! q with
                | Some _ => m
                | None => <[q := Dir]> m
                end) m l !! q
  = match m !! q with
    | Some n => Some n
    | None => if bool_decide (q ∈ l) then Some Dir else None
    end.
Proof.
  induction l as [|a l IH]; simpl.
  - by destruct (m !! q).
  - set (m' := foldr _ m l) in *.
    assert (Hstep : (match m' !! a with
                     | Some _ => m'
                     | None => <[a := Dir]> m'
                     end) !! q
                    = match m' !! q with
                      | Some n => Some n
                      | None => if bool_decide (q = a) then Some Dir else None
                      end).
    { destruct (decide (q = a)) as [->|Hne].
      - rewrite bool_decide_eq_true_2 by done.
        destruct (m' !! a) eqn:Ha; [by rewrite Ha|by rewrite lookup_insert_eq].
      - rewrite bool_decide_eq_false_2 by done.
        destruct (m' !! a); [by destruct (m' !! q)|].
        rewrite lookup_insert_ne by done. by destruct (m' !! q). }
    rewrite Hstep, IH. destruct (m !! q); [done|].
    rewrite (bool_decide_ext (q ∈ a :: l) (q = a ∨ q ∈ l)) by apply elem_of_cons.
    rewrite bool_decide_or.
    by destruct (bool_decide (q ∈ l)), (bool_decide (q = a)).
Qed.

Lemma mkdir_fold_size (l : list path) (m : gmap path node) :
  (size (foldr (λ q m, match m !! q with
                       | Some _ => m
                       | None => <[q := Dir]> m
                       end) m l) ≤ size m + length l)%nat.
Proof.
  induction l as [|a l IH]; simpl; [lia|].
  set (m' := foldr _ m l) in *.
  destruct (m' !! a) eqn:Ha; [lia|].
  rewrite map_size_insert_None by done. lia.
Qed.

(** [mkdir] on a path that the file system can hold, with no regular file
    on the way: the nodes that were there stay, and the missing prefixes of
    the path become directories. *)
Lemma mkdir_spec fs p :
  Fs.name_too_long p = false →
  (∀ q, q `prefix_of` p → Fs.is_file fs q = false) →
  ∃ fs', Fs.mkdir fs p = Ok fs'
    ∧ denied fs' = denied fs
    ∧ (size (nodes fs') ≤ size (nodes fs) + length p)%nat
    ∧ ∀ q, nodes fs' !! q
           = match nodes fs !! q with
             | Some n => Some n
             | None => if bool_decide (q ≠ [] ∧ q `prefix_of` p)
                       then Some Dir else None
             end.
Proof.
  intros Hlen Hfiles. unfold Fs.mkdir. rewrite Hlen, Hfiles by done.
  destruct (existsb _ _) eqn:Hex.
  { apply existsb_exists in Hex as (q & Hq & Hfile).
    apply list_elem_of_In, ancestors_and_self_spec in Hq as [_ Hq].
    by rewrite Hfiles in Hfile. }
  eexists. split; [done|]. split; [done|]. split.
  { simpl. etrans; [apply mkdir_fold_size|].
    unfold Fs.ancestors_and_self. by rewrite length_map, length_seq. }
  intros q. simpl. rewrite mkdir_fold_lookup.
  destruct (nodes fs !! q); [done|].
  apply option_eq. intros n.
  repeat case_bool_decide; try done;
    match goal with
    | Hin : _ ∈ Fs.ancestors_and_self _ |- _ =>
        by apply ancestors_and_self_spec in Hin
    | Hnin : _ ∉ Fs.ancestors_and_self _ |- _ =>
        exfalso; by apply Hnin, ancestors_and_self_spec
    end.
Qed.

(** A sound disk stays sound under [mkdir] of a path that the file system
    can hold, with no regular file on the way. *)
Lemma mkdir_sound fs base p :
  Fs.sound fs base →
  Fs.name_too_long p = false →
  (∀ q, q `prefix_of` p → Fs.is_file fs q = false) →
  ∃ fs', Fs.mkdir fs p = Ok fs'
    ∧ Fs.sound fs' base
    ∧ (p ≠ [] → Fs.is_dir fs' p = true)
    ∧ (∀ q n, nodes fs !! q = Some n → nodes fs' !! q = Some n)
    ∧ (∀ q, ¬ q `prefix_of` p → nodes fs' !! q = nodes fs !! q)
    ∧ (size (nodes fs') ≤ size (nodes fs) + length p)%nat.
Proof.
  intros (Hden & Htree & Hbase & Hbase_len) Hlen Hfiles.
  destruct (mkdir_spec fs p Hlen Hfiles) as (fs' & Hmk & Hden' & Hsize & Hlook).
  exists fs'. split; [done|].
  assert (Hkeep : ∀ q n, nodes fs !! q = Some n → nodes fs' !! q = Some n).
  { intros q n Hq. by rewrite Hlook, Hq. }
  assert (Hprefix : ∀ q, q ≠ [] → q `prefix_of` p → nodes fs' !! q = Some Dir).
  { intros q Hne Hq. rewrite Hlook.
    specialize (Hfiles q Hq). unfold Fs.is_file in Hfiles.
    destruct (nodes fs !! q) as [[|c]|]; try done.
    by rewrite bool_decide_eq_true_2. }
  split; [|split; [|split; [|split]]]; [| | | |done].
  - split; [congruence|]. split; [|split; [|done]].
    + intros q n Hq. rewrite Hlook in Hq.
      destruct (nodes fs !! q) as [n'|] eqn:Hold.
      * destruct (Htree q n' Hold) as [Hnil|Hpar]; [by left|].
        right. by apply Hkeep.
      * case_bool_decide as Hq'; [|done]. destruct Hq' as [_ Hq'].
        destruct (decide (Path.parent q = [])) as [Hnil|Hnn]; [by left|].
        right. apply Hprefix; [done|].
        etrans; [apply parent_prefix|done].
    + intros q Hq. specialize (Hbase q Hq). unfold Fs.is_file in *.
      rewrite Hlook. destruct (nodes fs !! q) as [[|c]|]; try done.
      by case_bool_decide.
  - intros Hne. unfold Fs.is_dir. by rewrite Hprefix.
  - done.
  - intros q Hq. rewrite Hlook. destruct (nodes fs !! q); [done|].
    rewrite bool_decide_eq_false_2; [done|]. by intros [_ ?].
Qed.

(** On a tree, nothing lies below a path that does not exist. *)
Lemma tree_no_orphan fs p s :
  Fs.tree fs → p ≠ [] → nodes fs !! p = None → nodes fs !! (p /: s) = None.
Proof.
  intros Htree Hne Hp.
  destruct (nodes fs !! (p /: s)) as [n|] eqn:Hchild; [|done].
  destruct (Htree _ _ Hchild) as [Hnil|Hpar]; rewrite parent_join in *; congruence.
Qed.

Lemma prefix_join_inv (q p : path) s :
  q `prefix_of` p /: s → q `prefix_of` p ∨ q = p /: s.
Proof.
  unfold Path.join. intros [k Hk].
  destruct (decide (k = [])) as [->|Hne].
  - right. by rewrite app_nil_r in Hk.
  - left. destruct (exists_last Hne) as (k' & x & ->).
    rewrite app_assoc in Hk. apply app_inj_tail in Hk as [-> _].
    by exists k'.
Qed.

Lemma join_not_prefix (p : path) s : ¬ p /: s `prefix_of` p.
Proof.
  intros Hpre. apply prefix_length in Hpre.
  unfold Path.join in Hpre. rewrite length_app in Hpre. simpl in Hpre. lia.
Qed.

Lemma name_too_long_join p s :
  Fs.name_too_long (p /: s)
  = Fs.name_too_long p || (Fs.NAME_MAX <? String.length s)%nat.
Proof.
  unfold Fs.name_too_long, Path.join. rewrite existsb_app. simpl.
  by rewrite orb_false_r.
Qed.

(** The first [save_json] into a directory that has no manifest and no
    temporary file yet succeeds and adds just the manifest. *)
Lemma save_json_fresh fs dir data :
  denied fs = ∅ →
  Fs.name_too_long dir = false →
  Fs.is_dir fs dir = true →
  nodes fs !! (dir /: "playlist.json") = None →
  nodes fs !! (dir /: "playlist.json.tmp") = None →
  FileUtils.save_json fs (dir /: "playlist.json") data
  = (true, Fs.with_nodes fs
             (<[dir /: "playlist.json" := File (Json data)]> (nodes fs))).
Proof.
  intros Hden Hlen Hdir Hman Htmp.
  unfold FileUtils.save_json. rewrite !manifest_with_suffix.
  change ("playlist" ++ ".json.tmp") with "playlist.json.tmp".
  assert (Hne : dir /: "playlist.json.tmp" ≠ dir /: "playlist.json").
  { intros Heq. by apply join_inj in Heq as [_ Heq]. }
  unfold Fs.exists_ at 1. rewrite Hman.
  rewrite write_ok; cycle 1.
  { by rewrite name_too_long_join, Hlen. }
  { rewrite Hden. set_solver. }
  { unfold Fs.is_dir. by rewrite Htmp. }
  { by rewrite parent_join. }
  unfold Fs.replace, Fs.read. simpl. rewrite lookup_insert_eq.
  rewrite bool_decide_eq_false_2 by (rewrite Hden; set_solver). simpl.
  rewrite write_ok; cycle 1.
  { by rewrite name_too_long_join, Hlen. }
  { simpl. rewrite Hden. set_solver. }
  { unfold Fs.is_dir. simpl. rewrite lookup_insert_ne by done. by rewrite Hman. }
  { rewrite parent_join. unfold Fs.is_dir in *. simpl.
    rewrite lookup_insert_ne by apply join_ne_self. done. }
  simpl. f_equal. unfold Fs.with_nodes. simpl. f_equal.
  rewrite delete_insert_ne by done.
  rewrite delete_insert_eq. by rewrite delete_id.
Qed.

(** ** C2 *)

Section creation.
Context `{Runtime}.

(** [create_playlist] on a sound disk, for a name whose candidate
    directories the file system can hold: it returns a playlist whose
    directory did not exist before, the plain one or, the plain one being
    taken, a numbered one; the disk stays sound and keeps what it had.  The
    loop tries no more numbers than the disk has nodes, which bounds the
    candidates that have to fit. *)
Lemma create_playlist_sound m home name description now fs :
  let base := FileUtils.playlists_directory home in
  let san := FileUtils.sanitize_filename name in
  Fs.sound fs base →
  (∀ k, (k ≤ size (nodes fs) + length base)%nat →
        (String.length (san ++ "_" ++ PyStr.of_nat k) ≤ Fs.NAME_MAX)%nat) →
  ∃ playlist fs',
    PlaylistManager.create_playlist m home name description now fs
    = Ok (Some playlist,
          PlaylistManager.mk (PlaylistManager.playlists_dir m)
            (<[name := playlist]> (PlaylistManager.playlists m)),
          fs')
    ∧ Playlist.name playlist = name
    ∧ nodes fs !! Playlist.path playlist = None
    ∧ (Playlist.path playlist = base /: san
       ∨ Fs.exists_ fs (base /: san) = true
         ∧ ∃ k, (1 ≤ k)%nat
                ∧ Playlist.path playlist = base /: (san ++ "_" ++ PyStr.of_nat k))
    ∧ Fs.sound fs' base
    ∧ Fs.is_dir fs' (Playlist.path playlist) = true
    ∧ FileUtils.validate_playlist_structure fs' (Playlist.path playlist) = true
    ∧ (∀ q n, nodes fs !! q = Some n → nodes fs' !! q = Some n)
    ∧ (size (nodes fs') ≤ size (nodes fs) + 2 * length base + 2)%nat.
Proof.
  intros base san Hsound Hfits.
  assert (Hbase_ne : base ≠ []).
  { unfold base, FileUtils.playlists_directory, Path.join.
    intros Heq. by apply app_nil in Heq as [_ ?]. }
  assert (Hbase_len : Fs.name_too_long base = false)
    by (by destruct Hsound as (_ & _ & _ & ?)).
  (* the playlists directory *)
  destruct (mkdir_sound fs base base Hsound Hbase_len)
    as (fs1 & Hmk1 & Hsound1 & Hdir1 & Hkeep1 & Hsame1 & Hsize1).
  { by destruct Hsound as (_ & _ & ? & _). }
  specialize (Hdir1 Hbase_ne).
  (* the free slot *)
  destruct (first_free_total fs1 base san) as [dir Hff].
  pose proof (first_free_found _ _ _ _ _ _ _ Hff) as [Hfree Hshape].
  assert (Hdir_none : nodes fs1 !! dir = None).
  { unfold Fs.exists_ in Hfree. by destruct (nodes fs1 !! dir). }
  assert (Hdir_join : ∃ s, dir = base /: s
                           ∧ (String.length s ≤ Fs.NAME_MAX)%nat).
  { destruct Hshape as [->|[_ (k & _ & Hk & ->)]].
    - exists san. split; [done|].
      etrans; [|apply (Hfits 0%nat); lia].
      rewrite string_length_app. lia.
    - eexists. split; [reflexivity|]. apply Hfits. lia. }
  destruct Hdir_join as (s & Hs & Hs_len).
  assert (Hdir_ne : dir ≠ []).
  { rewrite Hs. unfold Path.join. intros Heq. by apply app_nil in Heq as [_ ?]. }
  assert (Hdir_len : Fs.name_too_long dir = false).
  { rewrite Hs, name_too_long_join, Hbase_len. simpl.
    apply Nat.ltb_ge. done. }
  (* the playlist directory *)
  destruct (mkdir_sound fs1 base dir Hsound1 Hdir_len)
    as (fs2 & Hmk2 & Hsound2 & Hdir2 & Hkeep2 & Hsame2 & Hsize2).
  { intros q Hq. rewrite Hs in Hq. apply prefix_join_inv in Hq as [Hq| ->].
    - by destruct Hsound1 as (_ & _ & Hb & _); apply Hb.
    - unfold Fs.is_file. by rewrite <- Hs, Hdir_none. }
  specialize (Hdir2 Hdir_ne).
  assert (Hchild : ∀ x, nodes fs2 !! (dir /: x) = None).
  { intros x. rewrite Hsame2 by apply join_not_prefix.
    destruct Hsound1 as (_ & Htree1 & _). by apply tree_no_orphan. }
  (* the constructor finds no manifest *)
  assert (Hinit : ∀ now', Playlist.init dir now' fs2
            = Ok {| Playlist.path := dir;
                    Playlist.name := Path.name dir;
                    Playlist.description := "";
                    Playlist.created_date := now';
                    Playlist.modified_date := now';
                    Playlist.cover_image := None;
                    Playlist.total_duration := 0;
                    Playlist.track_count := 0;
                    Playlist.source := PlaylistSource.mk "manual" None None;
                    Playlist.settings := PlaylistSettings.default;
                    Playlist.tracks := [];
                    Playlist.tags := [] |}).
  { intros now'. unfold Playlist.init.
    rewrite (is_dir_exists _ _ Hdir2).
    unfold Playlist.load, FileUtils.load_json, Fs.read, Playlist.json_path.
    simpl. rewrite Hchild, name_too_long_join, Hdir_len. done. }
  (* the first save *)
  unfold PlaylistManager.create_playlist, FileUtils.create_playlist_folder,
    FileUtils.get_playlists_directory.
  fold base san. rewrite Hmk1, !bind_ok. cbv beta iota.
  rewrite Hff, Hmk2, !bind_ok. cbv beta iota.
  rewrite Hinit, bind_ok.
  unfold Playlist.save, Playlist.json_path.
  rewrite save_json_fresh;
    [|by destruct Hsound2|done|done|apply Hchild|apply Hchild].
  simpl. eexists _, _. split; [reflexivity|]. simpl.
  assert (Hmd : dir /: "playlist.json" ≠ dir) by apply join_ne_self.
  split; [done|]. split.
  { destruct (nodes fs !! dir) eqn:Hold; [|done].
    apply Hkeep1 in Hold. congruence. }
  split.
  { destruct Hshape as [->|[Hplain (k & Hk & _ & ->)]]; [by left|]. right. split.
    - unfold Fs.exists_ in *.
      by rewrite Hsame1 in Hplain by apply join_not_prefix.
    - by exists k. }
  split.
  { destruct Hsound2 as (Hden2 & Htree2 & Hb2 & _).
    split; [done|]. split; [|split; [|done]].
    - intros q n Hq. simpl in Hq.
      destruct (decide (q = dir /: "playlist.json")) as [->|Hqne].
      + right. rewrite parent_join. simpl.
        rewrite lookup_insert_ne by done.
        unfold Fs.is_dir in Hdir2. by destruct (nodes fs2 !! dir) as [[|]|].
      + rewrite lookup_insert_ne in Hq by done.
        destruct (Htree2 q n Hq) as [Hnil|Hpar]; [by left|]. right. simpl.
        rewrite lookup_insert_ne; [done|].
        intros Heq. rewrite <- Heq in Hpar. by rewrite Hchild in Hpar.
    - intros q Hq. unfold Fs.is_file. simpl.
      rewrite lookup_insert_ne.
      + by apply Hb2.
      + intros <-. rewrite Hs in Hq.
        apply prefix_length in Hq. unfold Path.join in Hq.
        rewrite !length_app in Hq. simpl in Hq. lia. }
  split.
  { unfold Fs.is_dir in *. simpl. by rewrite lookup_insert_ne. }
  split.
  { unfold FileUtils.validate_playlist_structure, Fs.is_file. simpl.
    by rewrite lookup_insert_eq. }
  split.
  { intros q n Hq. simpl.
    apply Hkeep1, Hkeep2 in Hq.
    rewrite lookup_insert_ne; [done|]. intros <-. by rewrite Hchild in Hq. }
  rewrite map_size_insert_None by apply Hchild.
  assert (length dir = S (length base)) as Hld.
  { rewrite Hs. unfold Path.join. rewrite length_app. simpl. lia. }
  lia.
Qed.

End creation.

(** On a sound disk, creating a playlist and at once creating another of
    the same name succeeds both times, as long as the file system can hold
    the candidate directories.  The two playlists have different
    directories, each holding a manifest; the first directory is the
    sanitized name or, when that is taken, the name with a suffix [_k]; the
    second always carries such a suffix, with [k] at least 1. *)
Lemma create_playlist_twice `{Runtime} m home name d1 d2 now1 now2 fs :
  let base := FileUtils.playlists_directory home in
  let san := FileUtils.sanitize_filename name in
  Fs.sound fs base →
  (∀ k, (k ≤ size (nodes fs) + 3 * length base + 2)%nat →
        (String.length (san ++ "_" ++ PyStr.of_nat k) ≤ Fs.NAME_MAX)%nat) →
  ∃ first m1 fs1 second m2 fs2,
    PlaylistManager.create_playlist m home name d1 now1 fs
    = Ok (Some first, m1, fs1)
    ∧ PlaylistManager.create_playlist m1 home name d2 now2 fs1
      = Ok (Some second, m2, fs2)
    ∧ Playlist.path first ≠ Playlist.path second
    ∧ (Fs.exists_ fs (base /: san) = false → Playlist.path first = base /: san)
    ∧ (Playlist.path first = base /: san
       ∨ ∃ k, (1 ≤ k)%nat
              ∧ Playlist.path first = base /: (san ++ "_" ++ PyStr.of_nat k))
    ∧ (∃ k, (1 ≤ k)%nat
            ∧ Playlist.path second = base /: (san ++ "_" ++ PyStr.of_nat k))
    ∧ Fs.exists_ fs (Playlist.path first) = false
    ∧ Fs.exists_ fs1 (Playlist.path second) = false
    ∧ FileUtils.validate_playlist_structure fs2 (Playlist.path first) = true
    ∧ FileUtils.validate_playlist_structure fs2 (Playlist.path second) = true
    ∧ Playlist.name first = name
    ∧ Playlist.name second = name
    ∧ PlaylistManager.get_playlist m1 name = Some first
    ∧ PlaylistManager.get_playlist m2 name = Some second
    ∧ PlaylistManager.playlists m2
      = <[name := second]> (PlaylistManager.playlists m).
Proof.
  intros base san Hsound Hfits.
  destruct (create_playlist_sound m home name d1 now1 fs Hsound)
    as (first & fs1 & Hc1 & Hname1 & Hnew1 & Hshape1 & Hsound1 & Hdir1 & Hval1
        & Hkeep1 & Hsize1).
  { intros k Hk. apply Hfits. unfold base. lia. }
  set (m1 := PlaylistManager.mk _ _) in Hc1.
  destruct (create_playlist_sound m1 home name d2 now2 fs1 Hsound1)
    as (second & fs2 & Hc2 & Hname2 & Hnew2 & Hshape2 & Hsound2 & Hdir2 & Hval2
        & Hkeep2 & _).
  { intros k Hk. apply Hfits. unfold base. lia. }
  fold base san in Hshape1, Hshape2.
  exists first, m1, fs1, second. eexists. exists fs2.
  split; [done|]. split; [exact Hc2|].
  assert (Hfirst_there : Fs.exists_ fs1 (Playlist.path first) = true)
    by (by apply is_dir_exists).
  assert (Hplain_there : Fs.exists_ fs1 (base /: san) = true).
  { destruct Hshape1 as [<-|[Hthere _]]; [done|].
    unfold Fs.exists_ in *.
    destruct (nodes fs !! (base /: san)) as [n|] eqn:Hn; [|done].
    by rewrite (Hkeep1 _ _ Hn). }
  repeat match goal with |- _ ∧ _ => split end.
  - intros Heq. rewrite Heq in Hfirst_there.
    unfold Fs.exists_ in Hfirst_there. by rewrite Hnew2 in Hfirst_there.
  - intros Hfree. destruct Hshape1 as [?|[Hthere _]]; [done|]. congruence.
  - destruct Hshape1 as [?|[_ ?]]; [by left|by right].
  - destruct Hshape2 as [Heq|[_ ?]]; [|done].
    exfalso. rewrite Heq in Hnew2.
    unfold Fs.exists_ in Hplain_there. by rewrite Hnew2 in Hplain_there.
  - unfold Fs.exists_. by rewrite Hnew1.
  - unfold Fs.exists_. by rewrite Hnew2.
  - unfold FileUtils.validate_playlist_structure, Fs.is_file in *.
    destruct (nodes fs1 !! (Playlist.path first /: "playlist.json"))
      as [[|c]|] eqn:Hman; try done.
    by rewrite (Hkeep2 _ _ Hman).
  - done.
  - done.
  - done.
  - unfold PlaylistManager.get_playlist, m1. simpl. by rewrite lookup_insert_eq.
  - unfold PlaylistManager.get_playlist. simpl. by rewrite lookup_insert_eq.
  - simpl. by rewrite insert_insert_eq.
Qed.

(** The empty disk is sound and has room for the two directories of
    ["My Mix"], so the lemma applies there. *)
Lemma create_playlist_twice_applies :
  ∃ first m1 fs1 second m2 fs2,
    PlaylistManager.create_playlist (H:=Demo.sum_left)
      (PlaylistManager.mk ["home"; "Music"; "Playlists"] ∅)
      ["home"] "My Mix" "one" "t1" Demo.empty_disk
    = Ok (Some first, m1, fs1)
    ∧ PlaylistManager.create_playlist (H:=Demo.sum_left) m1
        ["home"] "My Mix" "two" "t2" fs1
      = Ok (Some second, m2, fs2)
    ∧ Playlist.path first ≠ Playlist.path second
    ∧ Playlist.name first = Playlist.name second.
Proof.
  destruct (create_playlist_twice (H:=Demo.sum_left)
              (PlaylistManager.mk ["home"; "Music"; "Playlists"] ∅)
              ["home"] "My Mix" "one" "two" "t1" "t2" Demo.empty_disk)
    as (first & m1 & fs1 & second & m2 & fs2 & Hc1 & Hc2 & Hne & _ & _ & _ & _
        & _ & _ & _ & Hn1 & Hn2 & _).
  - split; [reflexivity|]. split; [|split; [|reflexivity]].
    + intros p n Hp. simpl in Hp. by rewrite lookup_empty in Hp.
    + intros q _. unfold Fs.is_file. simpl. by rewrite lookup_empty.
  - intros k Hk. change (k ≤ 11)%nat in Hk.
    do 12 (destruct k as [|k]; [vm_compute; lia|]). lia.
  - exists first, m1, fs1, second, m2, fs2. by rewrite Hn1, Hn2.
Qed.

(** C2: on an empty disk, [create_playlist("My Mix")] followed at once by
    [create_playlist("My Mix")] returns a playlist both times, in the
    directories [My Mix] and [My Mix_1].  Only the directory is
    disambiguated: both playlists have the name [My Mix], and the manager,
    which keys its playlists by name, holds one playlist afterwards, the
    second; the first, which it returned for the name before, is no longer
    reachable through it. *)
Theorem create_twice_keeps_one_playlist :
  ∃ first m1 fs1 second m2 fs2,
    PlaylistManager.create_playlist (H:=Demo.sum_left)
      (PlaylistManager.mk ["home"; "Music"; "Playlists"] ∅)
      ["home"] "My Mix" "one" "t1" Demo.empty_disk
    = Ok (Some first, m1, fs1)
    ∧ PlaylistManager.create_playlist (H:=Demo.sum_left) m1
        ["home"] "My Mix" "two" "t2" fs1
      = Ok (Some second, m2, fs2)
    ∧ Playlist.path first = ["home"; "Music"; "Playlists"; "My Mix"]
    ∧ Playlist.path second = ["home"; "Music"; "Playlists"; "My Mix_1"]
    ∧ FileUtils.validate_playlist_structure fs2 (Playlist.path first) = true
    ∧ FileUtils.validate_playlist_structure fs2 (Playlist.path second) = true
    ∧ Playlist.name first = "My Mix"
    ∧ Playlist.name second = "My Mix"
    ∧ PlaylistManager.get_playlist m1 "My Mix" = Some first
    ∧ PlaylistManager.get_playlist m2 "My Mix" = Some second
    ∧ PlaylistManager.playlists m2 = {["My Mix" := second]}
    ∧ (∀ name, PlaylistManager.get_playlist m2 name ≠ Some first).
Proof.
  do 6 eexists. split; [vm_compute; reflexivity|].
  split; [vm_compute; reflexivity|].
  do 8 (split; [vm_compute; reflexivity|]).
  match goal with
  | |- ?P ∧ _ => assert (Hsingle : P) by (vm_compute; reflexivity)
  end.
  split; [exact Hsingle|].
  intros name. unfold PlaylistManager.get_playlist. rewrite Hsingle.
  destruct (decide (name = "My Mix")) as [->|Hne].
  - rewrite lookup_singleton_eq. intros Heq. discriminate Heq.
  - by rewrite lookup_singleton_ne.
Qed.

(** [sanitize_filename] on names with characters to replace and to strip,
    on a name of which nothing is left, and on one of 101 characters of
    two bytes each, which is cut to 100 of them. *)
Lemma sanitize_filename_examples :
  let e_acute := String (ascii_of_nat 195) (String (ascii_of_nat 169) "") in
  FileUtils.sanitize_filename " .My: Mix?. " = "My_ Mix_"
  ∧ FileUtils.sanitize_filename "a/b\c" = "a_b_c"
  ∧ FileUtils.sanitize_filename ". ." = "Untitled"
  ∧ FileUtils.sanitize_filename (String.concat "" (replicate 101 e_acute))
    = String.concat "" (replicate 100 e_acute).
Proof. vm_compute. done. Qed.

(** The limit of [sanitize_filename] is one on characters, that of the
    file system one on bytes: a name of 100 characters of three bytes each
    is kept whole, and creating its directory raises [OSError]. *)
Lemma create_long_name_raises :
  let euro := String (ascii_of_nat 226)
                (String (ascii_of_nat 130) (String (ascii_of_nat 172) "")) in
  let name := String.concat "" (replicate 100 euro) in
  PyStr.len name = 100%nat
  ∧ FileUtils.sanitize_filename name = name
  ∧ PlaylistManager.create_playlist (H:=Demo.sum_left)
      (PlaylistManager.mk ["home"; "Music"; "Playlists"] ∅)
      ["home"] name "" "t1" Demo.empty_disk
    = Exc OSError.
Proof. vm_compute. done. Qed.
